(** * sync-python: installed packages against the declared dependency groups

    A shallow embedding of [scripts/sync-python.py].  Python strings are
    [string]s whose characters stand for the code points 0..255; dictionaries
    are insertion-ordered association lists with unique keys; Python sets of
    names are [gset string]; the [pip show] subprocess, the clock and the
    files are an explicit world that is threaded through the calls. *)

From Stdlib Require Import String Ascii NArith DecimalString OrderedTypeEx.
From stdpp Require Import base option list strings gmap sorting.

Local Open Scope string_scope.
Local Open Scope list_scope.

(** ** Python string primitives *)

Module Py.

Definition LF : ascii := "010"%char.

Definition code (c : ascii) : N := N_of_ascii c.

Definition between (lo hi : N) (c : ascii) : bool :=
  ((lo <=? code c) && (code c <=? hi))%N.

(** [str.isspace] on one character: TAB..CR, FS..US, SPACE, NEL, NBSP. *)
Definition isspace (c : ascii) : bool :=
  between 9 13 c || between 28 32 c || (code c =? 133)%N || (code c =? 160)%N.

(** [str.lower] on one character: A-Z, and the Latin-1 capitals
    U+00C0..U+00DE except the multiplication sign U+00D7. *)
Definition lower_char (c : ascii) : ascii :=
  if between 65 90 c || (between 192 222 c && negb (code c =? 215)%N)
  then ascii_of_N (code c + 32) else c.

Fixpoint lower (s : string) : string :=
  match s with
  | "" => ""
  | String c r => String (lower_char c) (lower r)
  end.

Definition truthy (s : string) : bool :=
  match s with "" => false | _ => true end.

Fixpoint lstrip (s : string) : string :=
  match s with
  | "" => ""
  | String c r => if isspace c then lstrip r else s
  end.

Fixpoint rstrip (s : string) : string :=
  match s with
  | "" => ""
  | String c r =>
      let r' := rstrip r in
      if isspace c && negb (truthy r') then "" else String c r'
  end.

(** [s.strip()] *)
Definition strip (s : string) : string := lstrip (rstrip s).

(** [s.startswith(p)] *)
Fixpoint startswith (p s : string) : bool :=
  match p, s with
  | "", _ => true
  | String a p', String b s' => if Ascii.eqb a b then startswith p' s' else false
  | String _ _, "" => false
  end.

Fixpoint drop (n : nat) (s : string) : string :=
  match n, s with
  | O, _ => s
  | S n', String _ r => drop n' r
  | S _, "" => ""
  end.

(** [s.partition(sep)] when [sep] occurs in [s]: the text before the first
    occurrence and the text after it. *)
Fixpoint partition (sep s : string) : option (string * string) :=
  if startswith sep s then Some ("", drop (String.length sep) s)
  else match s with
       | "" => None
       | String c r =>
           match partition sep r with
           | Some (a, b) => Some (String c a, b)
           | None => None
           end
       end.

(** [sep in s] *)
Definition contains (sep s : string) : bool :=
  match partition sep s with Some _ => true | None => false end.

(** [s.split(sep, 1)] *)
Definition split1 (sep s : string) : list string :=
  match partition sep s with
  | Some (a, b) => [a; b]
  | None => [s]
  end.

(** [s.split(c)] for a separator of one character. *)
Fixpoint split (c : ascii) (s : string) : list string :=
  match s with
  | "" => [""]
  | String a r =>
      let rest := split c r in
      if Ascii.eqb a c then "" :: rest
      else match rest with
           | h :: t => String a h :: t
           | [] => [String a ""]
           end
  end.

(** [sep.join(ls)] *)
Definition join (sep : string) (ls : list string) : string := String.concat sep ls.

(** [str(n)] for a length. *)
Definition str_of_nat (n : nat) : string := NilZero.string_of_uint (Nat.to_uint n).

(** [f"{s:30}"]: left-aligned, padded with spaces to the width. *)
Fixpoint spaces (n : nat) : string :=
  match n with O => "" | S k => String " " (spaces k) end.
Definition ljust (width : nat) (s : string) : string :=
  s +:+ spaces (width - String.length s).

End Py.

(** ** Regular expressions of the script *)

Module Re.

(** [[-_.]] *)
Definition is_sep (c : ascii) : bool :=
  Ascii.eqb c "-" || Ascii.eqb c "_" || Ascii.eqb c ".".

(** [re.sub(r"[-_.]+", "-", s)]: every maximal run of separators becomes
    one hyphen; [in_run] tells that the previous character was one. *)
Fixpoint sub_seps_from (in_run : bool) (s : string) : string :=
  match s with
  | "" => ""
  | String c r =>
      if is_sep c
      then if in_run then sub_seps_from true r
           else String "-" (sub_seps_from true r)
      else String c (sub_seps_from false r)
  end.
Definition sub_seps (s : string) : string := sub_seps_from false s.

(** [.*?\]] tried at the start of [s]: the number of characters it
    consumes.  The dot does not match a line feed, and the lazy star stops
    at the first closing bracket. *)
Fixpoint lazy_any_rbracket (s : string) : option nat :=
  match s with
  | "" => None
  | String c r =>
      if Ascii.eqb c "]" then Some 1
      else if Ascii.eqb c Py.LF then None
      else S <$> lazy_any_rbracket r
  end.

(** [re.sub(r"\[.*?\]", "", s)]: scanning from the left, a match that
    starts at an opening bracket is deleted and the scan goes on after it;
    [skip] counts the characters of the current match still to delete. *)
Fixpoint sub_extras_from (skip : nat) (s : string) : string :=
  match s with
  | "" => ""
  | String c r =>
      match skip with
      | S k => sub_extras_from k r
      | O =>
          if Ascii.eqb c "[" then
            match lazy_any_rbracket r with
            | Some n => sub_extras_from n r
            | None => String c (sub_extras_from 0 r)
            end
          else String c (sub_extras_from 0 r)
      end
  end.
Definition sub_extras (s : string) : string := sub_extras_from 0 s.

(** [[a-zA-Z0-9_-]] *)
Definition is_name_char (c : ascii) : bool :=
  Py.between 97 122 c || Py.between 65 90 c || Py.between 48 57 c
  || Ascii.eqb c "_" || Ascii.eqb c "-".

Fixpoint take_name (s : string) : string :=
  match s with
  | "" => ""
  | String c r => if is_name_char c then String c (take_name r) else ""
  end.

(** [re.match(r"^([a-zA-Z0-9_-]+)", s)]: group 1 of the match, if any. *)
Definition match_name (s : string) : option string :=
  match take_name s with
  | "" => None
  | tok => Some tok
  end.

End Re.

(** ** Names, requirements and listing lines *)

Definition normalize_package_name (name : string) : string :=
  Py.lower (Re.sub_seps name).

Definition parse_requirement (req : string) : string :=
  let req := Re.sub_extras req in
  match Re.match_name (Py.strip req) with
  | Some group1 => normalize_package_name group1
  | None => ""
  end.

Definition parse_freeze_line (line : string) : option (string * string) :=
  let line := Py.strip line in
  if negb (Py.truthy line) || Py.startswith "#" line || Py.startswith "-" line
  then None
  else if Py.startswith "-e" line then None
  else if Py.contains "==" line then
    match Py.split1 "==" line with
    | [name; version] => Some (normalize_package_name name, version)
    | _ => None
    end
  else None.

(** ** Dictionaries from names to version strings

    A Python [dict] keeps its keys in insertion order and holds each key
    once.  Assigning to a key that is present replaces its value in place. *)

Module Dict.

Definition t : Type := list (string * string).

Definition empty : t := [].

(** [d[k] = v] *)
Fixpoint set (d : t) (k v : string) : t :=
  match d with
  | [] => [(k, v)]
  | (k', v') :: r =>
      if String.eqb k' k then (k', v) :: r else (k', v') :: set r k v
  end.

(** [d.get(k)] *)
Fixpoint get (d : t) (k : string) : option string :=
  match d with
  | [] => None
  | (k', v') :: r => if String.eqb k' k then Some v' else get r k
  end.

(** [list(d)], the keys in insertion order. *)
Definition keys (d : t) : list string := d.*1.

(** [len(d)] *)
Definition len (d : t) : nat := length d.

(** [bool(d)] *)
Definition truthy (d : t) : bool :=
  match d with [] => false | _ => true end.

(** Well-formed dictionaries hold every key once. *)
Definition wf (d : t) : Prop := NoDup (keys d).

(** Python compares tuples lexicographically, strings by code point. *)
Definition item_lt (a b : string * string) : bool :=
  match String.compare a.1 b.1 with
  | Lt => true
  | Eq => String.ltb a.2 b.2
  | Gt => false
  end.

Definition item_le (a b : string * string) : Prop := item_lt b a = false.

#[export] Instance item_le_dec a b : Decision (item_le a b).
Proof. unfold item_le. apply _. Defined.

(** [sorted(d.items())] *)
Definition sorted_items (d : t) : list (string * string) :=
  merge_sort item_le d.

End Dict.

(** ** The manifest and the declared sets *)

(** The [project] table of pyproject.toml: [dependencies] is an array of
    requirement strings, [optional-dependencies] a table of such arrays.
    A key that is absent is [None]. *)
Record project_table : Type := {
  dependencies : option (list string);
  optional_dependencies : option (gmap string (list string));
}.

Record manifest : Type := {
  project : option project_table;
}.

Record declared_sets : Type := {
  decl_core : gset string;
  decl_gpu : gset string;
  decl_staged : gset string;
}.

(** [for dep in deps: name = parse_requirement(dep); if name: s.add(name)] *)
Definition add_requirements (s : gset string) (deps : list string) : gset string :=
  foldl (fun s dep =>
           let name := parse_requirement dep in
           if Py.truthy name then s ∪ {[ name ]} else s) s deps.

Definition get_declared_packages (pyproject : manifest) : declared_sets :=
  let empty_project := {| dependencies := None; optional_dependencies := None |} in
  let deps := default [] (dependencies (default empty_project (project pyproject))) in
  let core := add_requirements ∅ deps in
  let opt_deps :=
    default ∅ (optional_dependencies (default empty_project (project pyproject))) in
  let gpu := add_requirements ∅ (default [] (opt_deps !! "gpu")) in
  let staged := add_requirements ∅ (default [] (opt_deps !! "staged")) in
  {| decl_core := core; decl_gpu := gpu; decl_staged := staged |}.

(** ** The five buckets *)

Record categories : Type := {
  cat_core : Dict.t;
  cat_gpu : Dict.t;
  cat_staged : Dict.t;
  cat_staged_new : Dict.t;
  cat_transitive : Dict.t;
}.

Inductive bucket : Type := Core | Gpu | Staged | StagedNew | Transitive.

#[export] Instance bucket_eq_dec : EqDecision bucket.
Proof. solve_decision. Defined.

(** [categories[b]] *)
Definition bucket_of (c : categories) (b : bucket) : Dict.t :=
  match b with
  | Core => cat_core c
  | Gpu => cat_gpu c
  | Staged => cat_staged c
  | StagedNew => cat_staged_new c
  | Transitive => cat_transitive c
  end.

(** [categories[b][pkg] = version] *)
Definition bucket_set (c : categories) (b : bucket) (pkg version : string) : categories :=
  match b with
  | Core =>
      {| cat_core := Dict.set (cat_core c) pkg version; cat_gpu := cat_gpu c;
         cat_staged := cat_staged c; cat_staged_new := cat_staged_new c;
         cat_transitive := cat_transitive c |}
  | Gpu =>
      {| cat_core := cat_core c; cat_gpu := Dict.set (cat_gpu c) pkg version;
         cat_staged := cat_staged c; cat_staged_new := cat_staged_new c;
         cat_transitive := cat_transitive c |}
  | Staged =>
      {| cat_core := cat_core c; cat_gpu := cat_gpu c;
         cat_staged := Dict.set (cat_staged c) pkg version;
         cat_staged_new := cat_staged_new c; cat_transitive := cat_transitive c |}
  | StagedNew =>
      {| cat_core := cat_core c; cat_gpu := cat_gpu c; cat_staged := cat_staged c;
         cat_staged_new := Dict.set (cat_staged_new c) pkg version;
         cat_transitive := cat_transitive c |}
  | Transitive =>
      {| cat_core := cat_core c; cat_gpu := cat_gpu c; cat_staged := cat_staged c;
         cat_staged_new := cat_staged_new c;
         cat_transitive := Dict.set (cat_transitive c) pkg version |}
  end.

Definition empty_categories : categories :=
  {| cat_core := Dict.empty; cat_gpu := Dict.empty; cat_staged := Dict.empty;
     cat_staged_new := Dict.empty; cat_transitive := Dict.empty |}.

(** ** The outside world: [pip show] and the clock *)

(** What [subprocess.run(["pip", "show", package], ..., timeout=10)] does:
    it completes with a return code and the captured standard output, or
    raises [TimeoutExpired], or raises another [Exception]. *)
Inductive run_result : Type :=
  | Completed (returncode : Z) (stdout : string)
  | TimeoutExpired
  | Raised.

(** The loop over [result.stdout.split("\n")]: the first line that starts
    with [Required-by:] decides. *)
Fixpoint required_by_of_lines (lines : list string) : list string :=
  match lines with
  | [] => []
  | line :: rest =>
      if Py.startswith "Required-by:" line then
        let deps := Py.strip (nth 1 (Py.split1 ":" line) "") in
        if Py.truthy deps then Py.strip <$> Py.split "," deps else []
      else required_by_of_lines rest
  end.

Section World.

Context {World : Type}.

(** One [pip show] call, and one reading of the clock formatted by
    [strftime('%Y-%m-%d %H:%M')]; both may depend on, and change, the
    state of the world. *)
Variable pip_show : string → World → run_result * World.
Variable now_strftime : World → string * World.

Definition get_required_by (package : string) (w : World) : list string * World :=
  match pip_show package w with
  | (Completed returncode stdout, w') =>
      if bool_decide (returncode ≠ 0%Z) then ([], w')
      else (required_by_of_lines (Py.split Py.LF stdout), w')
  | (TimeoutExpired, w') => ([], w')
  | (Raised, w') => ([], w')
  end.

(** The body of the loop of [categorize_packages]. *)
Definition categorize_item (declared : declared_sets) (check_transitive : bool)
    (st : categories * World) (item : string * string) : categories * World :=
  let '(cats, w) := st in
  let '(pkg, version) := item in
  let normalized := normalize_package_name pkg in
  if bool_decide (normalized ∈ decl_core declared) then
    (bucket_set cats Core pkg version, w)
  else if bool_decide (normalized ∈ decl_gpu declared) then
    (bucket_set cats Gpu pkg version, w)
  else if bool_decide (normalized ∈ decl_staged declared) then
    (bucket_set cats Staged pkg version, w)
  else if check_transitive then
    let '(required_by, w') := get_required_by pkg w in
    match required_by with
    | _ :: _ => (bucket_set cats Transitive pkg version, w')
    | [] => (bucket_set cats StagedNew pkg version, w')
    end
  else
    (bucket_set cats StagedNew pkg version, w).

Definition categorize_packages (installed : Dict.t) (declared : declared_sets)
    (check_transitive : bool) (w : World) : categories * World :=
  foldl (categorize_item declared check_transitive) (empty_categories, w) installed.

(** [f"  {pkg:30} {ver}"], followed by the note of the section, if any. *)
Definition report_entry (suffix : string) (item : string * string) : string :=
  "  " +:+ Py.ljust 30 item.1 +:+ " " +:+ item.2 +:+ suffix.

Definition generate_report (cats : categories) (declared : declared_sets)
    (cluster version date : string) : string :=
  let count (b : bucket) := Py.str_of_nat (Dict.len (bucket_of cats b)) in
  (* a section: its title, the sorted entries or the line saying that there
     are none, and a blank line *)
  let section (title : string) (b : bucket) (none : string) : list string :=
    [title]
    ++ (if Dict.truthy (bucket_of cats b)
        then report_entry "" <$> Dict.sorted_items (bucket_of cats b)
        else [none])
    ++ [""] in
  let lines :=
    [ "=== Python Package Sync Report ===";
      "Cluster: " +:+ cluster;
      "Bioc Version: " +:+ version;
      "Date: " +:+ date;
      "" ]
    ++ section ("CORE PACKAGES (" +:+ count Core +:+ " installed):") Core "  (none)"
    ++ section ("GPU PACKAGES (" +:+ count Gpu +:+ " installed):") Gpu "  (none)"
    ++ section ("STAGED PACKAGES (" +:+ count Staged +:+ " existing):") Staged "  (none)"
    ++ [ "NEW STAGED CANDIDATES (" +:+ count StagedNew +:+ " found):" ]
    ++ (if Dict.truthy (cat_staged_new cats)
        then "  These packages are installed but not in pyproject.toml:"
             :: (report_entry "  <- consider adding to [staged]"
                   <$> Dict.sorted_items (cat_staged_new cats))
        else [ "  (none - all top-level packages are declared)" ])
    ++ [ "" ]
    ++ [ "TRANSITIVE DEPENDENCIES (" +:+ count Transitive +:+ " packages):";
         "  (auto-installed, no action needed)";
         "" ]
    ++ [ "TOTAL: "
         +:+ Py.str_of_nat
              (Dict.len (cat_core cats) + Dict.len (cat_gpu cats)
               + Dict.len (cat_staged cats) + Dict.len (cat_staged_new cats)
               + Dict.len (cat_transitive cats))
         +:+ " packages installed" ] in
  Py.join (String Py.LF "") lines.

(** [f'{pkg} = "{ver}"'] *)
Definition snapshot_entry (item : string * string) : string :=
  item.1 +:+ " = " +:+ String (ascii_of_nat 34) item.2 +:+ String (ascii_of_nat 34) "".

Definition snapshot_lines (installed : Dict.t) (cluster version date : string)
    : list string :=
  [ "# Python package snapshot";
    "# Cluster: " +:+ cluster;
    "# Bioc Version: " +:+ version;
    "# Date: " +:+ date;
    "# Packages: " +:+ Py.str_of_nat (Dict.len installed);
    "";
    "[packages]" ]
  ++ (snapshot_entry <$> Dict.sorted_items installed).

Definition generate_snapshot (installed : Dict.t) (cluster version date : string)
    : string :=
  Py.join (String Py.LF "") (snapshot_lines installed cluster version date).

(** ** The command line run *)

(** The files of the run.  [read_lines path] is [open(path)] and the loop
    over its lines; [load_pyproject path] is the function of that name,
    for a manifest of the shape of [manifest]; [write_text path text] is
    [Path.write_text].  Each of them either succeeds or raises, and an
    exception raised in [main] is caught nowhere: [None] and [false] stand
    for it.  Standard output is taken to accept what is printed. *)
Variable read_lines : string → World → option (list string) * World.
Variable load_pyproject : string → World → option manifest * World.
Variable write_text : string → string → World → bool * World.

(** The parsed arguments: the paths of the listing and of the manifest,
    the path of the snapshot if one is asked for, the two labels and the
    flag. *)
Record arguments : Type := {
  arg_freeze : string;
  arg_pyproject : string;
  arg_output : option string;
  arg_cluster : string;
  arg_version : string;
  arg_skip_transitive_check : bool;
}.

(** What a run leaves behind: the text printed, the snapshot file written
    (path and content), the exit status, and whether the interpreter
    reported an uncaught exception. *)
Record outcome : Type := {
  out_stdout : string;
  out_snapshot : option (string * string);
  out_exit : Z;
  out_traceback : bool;
}.

(** An exception leaves [main]: the interpreter prints the traceback and
    exits with status 1; what was printed before stays printed. *)
Definition uncaught_error (printed : string) : outcome :=
  {| out_stdout := printed; out_snapshot := None; out_exit := 1%Z;
     out_traceback := true |}.

(** The loop of [main] that fills [installed]; a parsed pair is a tuple of
    two fields and so always true. *)
Definition load_freeze (lines : list string) : Dict.t :=
  foldl (fun installed line =>
           match parse_freeze_line line with
           | Some (name, version) => Dict.set installed name version
           | None => installed
           end) Dict.empty lines.

Definition main (args : arguments) (w : World) : outcome * World :=
  match read_lines (arg_freeze args) w with
  | (None, w) => (uncaught_error "", w)
  | (Some lines, w) =>
      let installed := load_freeze lines in
      match load_pyproject (arg_pyproject args) w with
      | (None, w) => (uncaught_error "", w)
      | (Some pyproject, w) =>
          let declared := get_declared_packages pyproject in
          let '(cats, w) :=
            categorize_packages installed declared
              (negb (arg_skip_transitive_check args)) w in
          let '(date, w) := now_strftime w in
          let report :=
            generate_report cats declared (arg_cluster args) (arg_version args) date in
          let printed := report +:+ String Py.LF "" in
          let code := if Dict.truthy (cat_staged_new cats) then 1%Z else 0%Z in
          match arg_output args with
          | None =>
              ({| out_stdout := printed; out_snapshot := None; out_exit := code;
                  out_traceback := false |}, w)
          | Some path =>
              let '(date, w) := now_strftime w in
              let snapshot :=
                generate_snapshot installed (arg_cluster args) (arg_version args) date in
              match write_text path snapshot w with
              | (false, w) => (uncaught_error printed, w)
              | (true, w) =>
                  ({| out_stdout :=
                        printed +:+ String Py.LF "" +:+ "Snapshot saved: " +:+ path
                        +:+ String Py.LF "";
                      out_snapshot := Some (path, snapshot); out_exit := code;
                      out_traceback := false |}, w)
              end
          end
      end
  end.

(** The snapshot write of a run that has read the listing [lines] and the
    manifest [pyproject] and goes on in the world [w]: [None] when no
    snapshot is asked for, else whether [write_text] succeeded, for the
    text and in the world that [main] hands to it. *)
Definition snapshot_write (args : arguments) (lines : list string)
    (pyproject : manifest) (w : World) : option bool :=
  match arg_output args with
  | None => None
  | Some path =>
      let installed := load_freeze lines in
      let classified :=
        categorize_packages installed (get_declared_packages pyproject)
          (negb (arg_skip_transitive_check args)) w in
      let report_clock := now_strftime classified.2 in
      let snapshot_clock := now_strftime report_clock.2 in
      Some (write_text path
              (generate_snapshot installed (arg_cluster args) (arg_version args)
                 snapshot_clock.1)
              snapshot_clock.2).1
  end.

End World.

(** ** The run of the classifier, package by package *)

Section Trace.

Context {World : Type}.
Variable pip_show : string → World → run_result * World.

(** The bucket that the loop body picks for a package, and the world it
    leaves: the branch conditions of [categorize_item] on their own. *)
Definition classify (declared : declared_sets) (check_transitive : bool)
    (pkg : string) (w : World) : bucket * World :=
  let normalized := normalize_package_name pkg in
  if bool_decide (normalized ∈ decl_core declared) then (Core, w)
  else if bool_decide (normalized ∈ decl_gpu declared) then (Gpu, w)
  else if bool_decide (normalized ∈ decl_staged declared) then (Staged, w)
  else if check_transitive then
    match (get_required_by pip_show pkg w).1 with
    | _ :: _ => (Transitive, (get_required_by pip_show pkg w).2)
    | [] => (StagedNew, (get_required_by pip_show pkg w).2)
    end
  else (StagedNew, w).

(** [if required_by:] for the answer to a query made in the world [w]. *)
Definition has_dependents (pkg : string) (w : World) : bool :=
  match (get_required_by pip_show pkg w).1 with
  | [] => false
  | _ :: _ => true
  end.

(** The world after the loop has gone through the packages [pkgs]. *)
Fixpoint world_after (declared : declared_sets) (check_transitive : bool)
    (pkgs : list string) (w : World) : World :=
  match pkgs with
  | [] => w
  | pkg :: rest =>
      world_after declared check_transitive rest
        (classify declared check_transitive pkg w).2
  end.

(** The installed items, each with the bucket picked for it in its turn. *)
Fixpoint tagged (declared : declared_sets) (check_transitive : bool)
    (installed : Dict.t) (w : World) : list (string * string * bucket) :=
  match installed with
  | [] => []
  | (pkg, version) :: rest =>
      (pkg, version, (classify declared check_transitive pkg w).1)
      :: tagged declared check_transitive rest
           (classify declared check_transitive pkg w).2
  end.

(** The world in which the loop reaches the package [pkg]. *)
Fixpoint world_at (declared : declared_sets) (check_transitive : bool)
    (installed : Dict.t) (w : World) (pkg : string) : World :=
  match installed with
  | [] => w
  | (k, _) :: rest =>
      if String.eqb k pkg then w
      else world_at declared check_transitive rest
             (classify declared check_transitive k w).2 pkg
  end.

End Trace.

(** ** Notions used to state the properties *)

(** The items that carry the tag [b], in their order. *)
Definition picked (b : bucket) (ts : list (string * string * bucket)) : Dict.t :=
  (filter (fun t => t.2 = b) ts).*1.

(** The classification rule in the words of the specification: the first
    rule that applies, in the order core, gpu, staged, transitive,
    staged_new. *)
Definition priority_rule (in_core in_gpu in_staged lookup_enabled has_dependents : bool)
    : bucket :=
  if in_core then Core
  else if in_gpu then Gpu
  else if in_staged then Staged
  else if lookup_enabled && has_dependents then Transitive
  else StagedNew.

(** A reverse-dependency query that failed: it timed out, raised, ended with
    a nonzero status, or printed no [Required-by:] line. *)
Definition query_failed (r : run_result) : Prop :=
  match r with
  | TimeoutExpired | Raised => True
  | Completed returncode stdout =>
      returncode ≠ 0%Z
      ∨ Forall (fun line => Py.startswith "Required-by:" line = false)
          (Py.split Py.LF stdout)
  end.

Definition declared_disjoint (d : declared_sets) : Prop :=
  decl_core d ## decl_gpu d ∧ decl_core d ## decl_staged d ∧ decl_gpu d ## decl_staged d.

(** The non-empty names that [parse_requirement] finds in a list. *)
Definition parsed_names (deps : list string) : list string :=
  filter (fun name => name ≠ "") (parse_requirement <$> deps).

(** No non-empty parsed name is shared by the two requirement lists. *)
Definition share_no_name (deps1 deps2 : list string) : Prop :=
  ∀ name, name ∈ parsed_names deps1 → name ∈ parsed_names deps2 → False.

(** The requirement lists of a manifest; a list that is absent is empty. *)
Definition manifest_core (m : manifest) : list string :=
  match project m with
  | Some {| dependencies := Some deps |} => deps
  | _ => []
  end.

Definition manifest_group (group : string) (m : manifest) : list string :=
  match project m with
  | Some {| optional_dependencies := Some table |} => default [] (table !! group)
  | _ => []
  end.

(** Every character of [s] satisfies [p]. *)
Fixpoint all_chars (p : ascii → bool) (s : string) : bool :=
  match s with
  | "" => true
  | String c r => p c && all_chars p r
  end.

(** The first character of [s], if any, satisfies [p]. *)
Definition head_is (p : ascii → bool) (s : string) : bool :=
  match s with "" => false | String c _ => p c end.

(** The last character of [s], if any, satisfies [p]. *)
Fixpoint last_is (p : ascii → bool) (s : string) : bool :=
  match s with
  | "" => false
  | String c "" => p c
  | String _ r => last_is p r
  end.

(** [s] holds no underscore and no full stop, and no two hyphens in a row;
    [after_hyphen] tells that a hyphen comes right before [s]. *)
Fixpoint collapsed_from (after_hyphen : bool) (s : string) : bool :=
  match s with
  | "" => true
  | String c r =>
      if Ascii.eqb c "-" then negb after_hyphen && collapsed_from true r
      else negb (Re.is_sep c) && collapsed_from false r
  end.
Definition collapsed (s : string) : bool := collapsed_from false s.

(** A character that may stand inside the brackets of an extras suffix. *)
Definition is_extras_char (c : ascii) : bool :=
  negb (Ascii.eqb c "]") && negb (Ascii.eqb c Py.LF).

Definition not_lbracket (c : ascii) : bool := negb (Ascii.eqb c "[").

(** [A-Z] *)
Definition is_ascii_upper (c : ascii) : bool := Py.between 65 90 c.

(** [s] in double quotes. *)
Definition quoted (s : string) : string :=
  String (ascii_of_nat 34) s +:+ String (ascii_of_nat 34) "".

(** Items in the code-point order of their names. *)
Definition name_le (a b : string * string) : Prop := String.leb a.1 b.1 = true.

(** ** Example worlds and inputs *)

(** The state counts the queries made so far: a query made at an even count
    finds two dependents, one made at an odd count times out. *)
Definition alternating_pip_show (pkg : string) (n : nat) : run_result * nat :=
  (if Nat.even n
   then Completed 0 ("Name: " +:+ pkg +:+ String Py.LF "Required-by: a, b")
   else TimeoutExpired,
   S n).

(** Every query times out. *)
Definition failing_pip_show (pkg : string) (n : nat) : run_result * nat :=
  (TimeoutExpired, S n).

(** Only [six] has dependents, whenever it is asked. *)
Definition six_pip_show (pkg : string) (n : nat) : run_result * nat :=
  (if String.eqb pkg "six"
   then Completed 0 ("Name: six" +:+ String Py.LF "Required-by: pandas")
   else Completed 1 "",
   S n).

Definition example_installed : Dict.t :=
  [("x", "1.0"); ("numpy", "2.0"); ("six", "1.16"); ("y", "3.0")].

Definition example_declared : declared_sets :=
  {| decl_core := {[ "numpy" ]}; decl_gpu := ∅; decl_staged := {[ "numpy" ]} |}.

(** A manifest that lists [scanpy] both as a core dependency and in the
    staged group. *)
Definition overlapping_manifest : manifest :=
  {| project :=
       Some {| dependencies := Some ["scanpy[cuda12]>=1.10"; "numpy"];
               optional_dependencies := Some {[ "staged" := ["scanpy"] ]} |} |}.

Definition empty_manifest : manifest := {| project := None |}.

Definition core_x_manifest : manifest :=
  {| project := Some {| dependencies := Some ["x"]; optional_dependencies := None |} |}.

(** The files of the exit-code examples: the listing [freeze.txt] with the
    one line [x==1.0], a manifest that declares nothing and one that
    declares [x] as a core dependency; nothing can be written under
    [/nonexistent-dir/]. *)
Definition example_read_lines (path : string) (n : nat) : option (list string) * nat :=
  (if String.eqb path "freeze.txt" then Some ["x==1.0"] else None, n).

Definition example_load_pyproject (path : string) (n : nat) : option manifest * nat :=
  (if String.eqb path "empty.toml" then Some empty_manifest
   else if String.eqb path "core-x.toml" then Some core_x_manifest
   else None, n).

Definition example_write_text (path text : string) (n : nat) : bool * nat :=
  (negb (Py.startswith "/nonexistent-dir/" path), n).

Definition example_clock (n : nat) : string * nat := ("2026-01-01 00:00", n).

Definition example_arguments (pyproject : string) (output : option string)
    (skip : bool) : arguments :=
  {| arg_freeze := "freeze.txt"; arg_pyproject := pyproject; arg_output := output;
     arg_cluster := "unknown"; arg_version := "unknown";
     arg_skip_transitive_check := skip |}.

(** [pip show] answers for [numpy] only; any other query times out. *)
Definition numpy_only_pip_show (pkg : string) (n : nat) : run_result * nat :=
  (if String.eqb pkg "numpy"
   then Completed 0 ("Name: numpy" +:+ String Py.LF "Required-by: pandas")
   else TimeoutExpired,
   S n).

(** ** Further notions *)

(** A name that normalization leaves as it is. *)
Definition in_normal_form (name : string) : Prop :=
  normalize_package_name name = name.

(** The name is in one of the three declared sets. *)
Definition is_declared (declared : declared_sets) (name : string) : bool :=
  bool_decide (name ∈ decl_core declared)
  || bool_decide (name ∈ decl_gpu declared)
  || bool_decide (name ∈ decl_staged declared).

(** Any character but [c]. *)
Definition other_than (c : ascii) (a : ascii) : bool := negb (Ascii.eqb a c).

(** The comment sign or a hyphen, the two characters that make
    [parse_freeze_line] drop a line. *)
Definition is_skip_mark (c : ascii) : bool := Ascii.eqb c "#" || Ascii.eqb c "-".

(** No whitespace at either end, and not empty. *)
Definition is_trimmed (s : string) : bool :=
  Py.truthy s && negb (head_is Py.isspace s) && negb (last_is Py.isspace s).

(** The name of a dependent as [pip show] prints it: trimmed, and without
    a comma. *)
Definition is_dependent_name (d : string) : bool :=
  is_trimmed d && all_chars (other_than ",") d.

(** The [Required-by:] line that lists the dependents. *)
Definition required_by_line (deps : list string) : string :=
  "Required-by: " +:+ Py.join ", " deps.

(** A line of text holds no line feed. *)
Definition is_line (s : string) : bool := all_chars (other_than Py.LF) s.

(** A [pip show] that prints the lines given, whatever the package. *)
Definition printing_pip_show (lines : list string) (pkg : string) (n : nat)
    : run_result * nat :=
  (Completed 0 (Py.join (String Py.LF "") lines), S n).

(** The loop asks [pip show] about the package: the check is enabled and
    the normalized name is in no declared set. *)
Definition is_queried (declared : declared_sets) (check_transitive : bool)
    (pkg : string) : bool :=
  check_transitive && negb (is_declared declared (normalize_package_name pkg)).

(** The last line of the report, for a number of packages. *)
Definition total_line (n : nat) : string :=
  "TOTAL: " +:+ Py.str_of_nat n +:+ " packages installed".

(** A manifest with the given core list and table of optional groups. *)
Definition manifest_of (deps : option (list string))
    (table : gmap string (list string)) : manifest :=
  {| project := Some {| dependencies := deps; optional_dependencies := Some table |} |}.

(** * Properties *)

(** ** Dictionaries *)

Module DictFacts.
Import Dict.

Lemma keys_cons k v (d : t) : keys ((k, v) :: d) = k :: keys d.
Proof. reflexivity. Qed.

Lemma keys_app (d1 d2 : t) : keys (d1 ++ d2) = keys d1 ++ keys d2.
Proof. apply fmap_app. Qed.

Lemma elem_of_keys k (d : t) : k ∈ keys d ↔ ∃ v, (k, v) ∈ d.
Proof.
  unfold keys. rewrite list_elem_of_fmap. split.
  - intros [[k' v] [-> Hin]]. by exists v.
  - intros [v Hin]. by exists (k, v).
Qed.

(** Assigning to a key that is absent appends the item. *)
Lemma set_fresh (d : t) k v : k ∉ keys d → set d k v = d ++ [(k, v)].
Proof.
  induction d as [|[k' v'] d IH]; [done|].
  rewrite keys_cons, not_elem_of_cons. intros [Hne Hk]. simpl.
  destruct (String.eqb_spec k' k) as [->|_]; [done|]. by rewrite IH.
Qed.

(** Assigning never changes the order of the keys that are present. *)
Lemma keys_set_present (d : t) k v : k ∈ keys d → keys (set d k v) = keys d.
Proof.
  induction d as [|[k' v'] d IH].
  - by intros ?%elem_of_nil.
  - rewrite keys_cons. intros Hin. simpl.
    destruct (String.eqb_spec k' k) as [->|Hne]; [done|].
    rewrite !keys_cons. f_equal. apply IH.
    apply elem_of_cons in Hin as [->|?]; done.
Qed.

Lemma wf_set (d : t) k v : wf d → wf (set d k v).
Proof.
  unfold wf. intros Hwf. destruct (decide (k ∈ keys d)) as [Hin|Hnin].
  - by rewrite keys_set_present.
  - rewrite set_fresh, keys_app by done. apply NoDup_app. split_and!; [done| |].
    + intros x Hx ->%list_elem_of_singleton. done.
    + apply NoDup_singleton.
Qed.

Lemma get_set (d : t) k v k' :
  get (set d k v) k' = if decide (k = k') then Some v else get d k'.
Proof.
  induction d as [|[k0 v0] d IH]; simpl.
  - destruct (String.eqb_spec k k'), (decide (k = k')); congruence.
  - destruct (String.eqb_spec k0 k) as [->|Hne]; simpl.
    + destruct (String.eqb_spec k k'), (decide (k = k')); congruence.
    + rewrite IH. destruct (String.eqb_spec k0 k'), (decide (k = k')); congruence.
Qed.

(** In a well-formed dictionary an item is what a lookup returns. *)
Lemma get_Some (d : t) k v : wf d → get d k = Some v ↔ (k, v) ∈ d.
Proof.
  unfold wf. induction d as [|[k0 v0] d IH].
  - intros _. split; [done|]. by intros ?%elem_of_nil.
  - rewrite keys_cons, NoDup_cons. intros [Hk0 Hnd].
    rewrite elem_of_cons. simpl. destruct (String.eqb_spec k0 k) as [->|Hne].
    + split; [intros [= ->]; by left|].
      intros [[= ->]|Hin]; [done|]. destruct Hk0. apply elem_of_keys. eauto.
    + rewrite IH by done. split; [by right|]. intros [[= ? ?]|?]; [congruence|done].
Qed.

(** One key, one value. *)
Lemma wf_functional (d : t) k v1 v2 : wf d → (k, v1) ∈ d → (k, v2) ∈ d → v1 = v2.
Proof.
  intros Hwf H1 H2. apply (get_Some _ _ _ Hwf) in H1, H2. congruence.
Qed.

End DictFacts.

(** ** The classifier as a grouping of tagged items *)

Lemma NoDup_fmap_elem_inj {A B} (f : A → B) (l : list A) x y :
  NoDup (f <$> l) → x ∈ l → y ∈ l → f x = f y → x = y.
Proof.
  induction l as [|a l IH]; [by intros _ ?%elem_of_nil|].
  rewrite fmap_cons, NoDup_cons, !elem_of_cons. intros [Ha Hnd] [->|Hx] [->|Hy] Hf.
  - done.
  - destruct Ha. rewrite Hf. by apply list_elem_of_fmap_2.
  - destruct Ha. rewrite <- Hf. by apply list_elem_of_fmap_2.
  - by apply IH.
Qed.

Lemma bucket_of_set c b0 k v b :
  bucket_of (bucket_set c b0 k v) b
  = if decide (b0 = b) then Dict.set (bucket_of c b) k v else bucket_of c b.
Proof. by destruct b0, b. Qed.

Lemma elem_of_picked b ts k v : (k, v) ∈ picked b ts ↔ (k, v, b) ∈ ts.
Proof.
  unfold picked. rewrite list_elem_of_fmap. split.
  - intros [[[k' v'] b'] [[= -> ->] [Hb Hin]%list_elem_of_filter]]. simpl in Hb. by subst.
  - intros Hin. exists (k, v, b). split; [done|]. by apply list_elem_of_filter.
Qed.

Section Classifier.

Context {World : Type}.
Variable pip_show : string → World → run_result * World.
Variable declared : declared_sets.
Variable check_transitive : bool.

Abbreviation step := (categorize_item pip_show declared check_transitive).
Abbreviation pick := (classify pip_show declared check_transitive).
Abbreviation tags := (tagged pip_show declared check_transitive).
Abbreviation after := (world_after pip_show declared check_transitive).
Abbreviation run installed w :=
  (categorize_packages pip_show installed declared check_transitive w).

(** The loop body stores the item in the bucket that [classify] picks. *)
Lemma categorize_item_classify c w pkg version :
  step (c, w) (pkg, version)
  = (bucket_set c (pick pkg w).1 pkg version, (pick pkg w).2).
Proof.
  unfold categorize_item, classify.
  repeat case_bool_decide; try done.
  destruct check_transitive; [|done].
  by destruct (get_required_by pip_show pkg w) as [[|] w'].
Qed.

Lemma tagged_items installed w : (tags installed w).*1 = installed.
Proof.
  revert w. induction installed as [|[pkg version] rest IH]; intros w; [done|].
  simpl. by rewrite IH.
Qed.

(** Starting from buckets that hold none of the keys still to come, the
    loop appends to each bucket the items tagged with it. *)
Lemma categorize_from_tagged installed : ∀ c w,
  Dict.wf installed →
  (∀ b k, k ∈ Dict.keys installed → k ∉ Dict.keys (bucket_of c b)) →
  (∀ b, bucket_of (foldl step (c, w) installed).1 b
        = bucket_of c b ++ picked b (tags installed w))
  ∧ (foldl step (c, w) installed).2 = after (Dict.keys installed) w.
Proof.
  unfold Dict.wf.
  induction installed as [|[pkg version] rest IH]; intros c w Hnd Hfresh.
  - split; [|done]. intros b. unfold picked. simpl. by rewrite app_nil_r.
  - rewrite DictFacts.keys_cons in Hnd, Hfresh. apply NoDup_cons in Hnd as [Hpkg Hnd].
    cbn [foldl]. rewrite categorize_item_classify.
    destruct (IH (bucket_set c (pick pkg w).1 pkg version) (pick pkg w).2 Hnd)
      as [Hb Hw].
    { intros b k Hk. rewrite bucket_of_set. case_decide.
      - rewrite DictFacts.set_fresh by (apply Hfresh; by left).
        rewrite DictFacts.keys_app, not_elem_of_app. split; [apply Hfresh; by right|].
        intros ->%list_elem_of_singleton. done.
      - apply Hfresh. by right. }
    split; [|exact Hw].
    intros b. rewrite Hb, bucket_of_set. simpl tagged. unfold picked.
    rewrite filter_cons. simpl. case_decide.
    + rewrite DictFacts.set_fresh by (apply Hfresh; by left).
      by rewrite <- app_assoc.
    + done.
Qed.

(** Each bucket is the list of the items tagged with it, in the order of
    the installed dictionary. *)
Lemma categorize_buckets installed w b :
  Dict.wf installed →
  bucket_of (run installed w).1 b = picked b (tags installed w).
Proof.
  intros Hwf. unfold categorize_packages.
  destruct (categorize_from_tagged installed empty_categories w Hwf) as [Hb _].
  { intros b' k _. destruct b'; apply not_elem_of_nil. }
  rewrite Hb. by destruct b.
Qed.

Lemma categorize_world installed w :
  (run installed w).2 = after (Dict.keys installed) w.
Proof.
  unfold categorize_packages. generalize empty_categories. revert w.
  induction installed as [|[pkg version] rest IH]; intros w c; [done|].
  cbn [foldl]. rewrite categorize_item_classify. apply IH.
Qed.

Lemma elem_of_bucket installed w b k v :
  Dict.wf installed →
  (k, v) ∈ bucket_of (run installed w).1 b ↔ (k, v, b) ∈ tags installed w.
Proof. intros Hwf. by rewrite categorize_buckets, elem_of_picked. Qed.

Lemma tagged_installed installed w k v b :
  (k, v, b) ∈ tags installed w → (k, v) ∈ installed.
Proof.
  intros Hin. rewrite <- (tagged_items installed w).
  by apply (list_elem_of_fmap_2 fst) in Hin.
Qed.

Lemma installed_tagged installed w k v :
  (k, v) ∈ installed → ∃ b, (k, v, b) ∈ tags installed w.
Proof.
  rewrite <- (tagged_items installed w) at 1.
  intros [[[k' v'] b] [[= -> ->] Hin]]%list_elem_of_fmap. eauto.
Qed.

Lemma bucket_wf installed w b :
  Dict.wf installed → Dict.wf (bucket_of (run installed w).1 b).
Proof.
  intros Hwf. rewrite categorize_buckets by done.
  unfold Dict.wf, Dict.keys, picked. rewrite <- list_fmap_compose.
  revert Hwf. unfold Dict.wf, Dict.keys.
  rewrite <- (tagged_items installed w) at 1. rewrite <- list_fmap_compose.
  generalize (tags installed w). intros ts.
  induction ts as [|t ts IH]; [done|].
  rewrite fmap_cons, NoDup_cons. intros [Ht Hnd]. rewrite filter_cons.
  case_decide; [|by apply IH].
  rewrite fmap_cons. apply NoDup_cons. split; [|by apply IH].
  intros [t' [Heq [_ Hin]%list_elem_of_filter]]%list_elem_of_fmap.
  apply Ht. apply list_elem_of_fmap. eauto.
Qed.

(** The bucket picked for a package is the one the priority rule names. *)
Lemma classify_priority pkg w :
  (pick pkg w).1
  = priority_rule
      (bool_decide (normalize_package_name pkg ∈ decl_core declared))
      (bool_decide (normalize_package_name pkg ∈ decl_gpu declared))
      (bool_decide (normalize_package_name pkg ∈ decl_staged declared))
      check_transitive (has_dependents pip_show pkg w).
Proof.
  unfold classify, priority_rule, has_dependents.
  repeat case_bool_decide; try done.
  destruct check_transitive; [|done].
  by destruct (get_required_by pip_show pkg w).1.
Qed.

(** The tag of a package was picked in the world in which the loop
    reached it. *)
Lemma tagged_world_at installed : ∀ w k v b,
  Dict.wf installed → (k, v, b) ∈ tags installed w →
  b = (pick k (world_at pip_show declared check_transitive installed w k)).1.
Proof.
  unfold Dict.wf.
  induction installed as [|[k0 v0] rest IH]; intros w k v b Hnd Hin.
  - by apply elem_of_nil in Hin.
  - rewrite DictFacts.keys_cons in Hnd. apply NoDup_cons in Hnd as [Hk0 Hnd].
    simpl in Hin. apply elem_of_cons in Hin as [[= -> -> ->]|Hin]; simpl.
    + by rewrite String.eqb_refl.
    + destruct (String.eqb_spec k0 k) as [->|Hne]; [|by eapply IH].
      destruct Hk0. apply DictFacts.elem_of_keys. exists v.
      by eapply tagged_installed.
Qed.

Lemma world_at_prefix pre pkg version post w :
  pkg ∉ Dict.keys pre →
  world_at pip_show declared check_transitive (pre ++ (pkg, version) :: post) w pkg
  = (run pre w).2.
Proof.
  rewrite categorize_world. revert w.
  induction pre as [|[k0 v0] pre IH]; intros w Hnin; simpl.
  - by rewrite String.eqb_refl.
  - rewrite DictFacts.keys_cons in Hnin. apply not_elem_of_cons in Hnin as [Hne Hnin].
    destruct (String.eqb_spec k0 pkg) as [->|_]; [done|]. by apply IH.
Qed.

(** The world in which a package is reached depends on the keys before
    it, not on the versions. *)
Lemma world_at_keys installed1 : ∀ installed2 w pkg,
  Dict.keys installed1 = Dict.keys installed2 →
  world_at pip_show declared check_transitive installed1 w pkg
  = world_at pip_show declared check_transitive installed2 w pkg.
Proof.
  induction installed1 as [|[k1 v1] rest1 IH]; intros [|[k2 v2] rest2] w pkg Hk;
    try done.
  rewrite !DictFacts.keys_cons in Hk. injection Hk as -> Hk. simpl.
  destruct (String.eqb k2 pkg); [done|]. by apply IH.
Qed.

(** Where each key ends up: in the bucket named by the priority rule for
    the answer it got. *)
Lemma elem_of_bucket_keys installed w b k :
  Dict.wf installed →
  k ∈ Dict.keys (bucket_of (run installed w).1 b)
  ↔ k ∈ Dict.keys installed
    ∧ b = (pick k (world_at pip_show declared check_transitive installed w k)).1.
Proof.
  intros Hwf. rewrite !DictFacts.elem_of_keys. split.
  - intros [v Hin]. apply elem_of_bucket in Hin; [|done]. split.
    + exists v. by eapply tagged_installed.
    + by eapply tagged_world_at.
  - intros [[v Hin] Hb]. exists v. apply elem_of_bucket; [done|].
    destruct (installed_tagged installed w k v Hin) as [b' Hin'].
    by rewrite Hb, <- (tagged_world_at installed w k v b' Hwf Hin').
Qed.

(** A package is stored, with its version, in the bucket picked for it. *)
Lemma get_bucket installed w pkg version :
  Dict.wf installed → (pkg, version) ∈ installed →
  Dict.get
    (bucket_of (run installed w).1
       (pick pkg (world_at pip_show declared check_transitive installed w pkg)).1)
    pkg
  = Some version.
Proof.
  intros Hwf Hin. apply DictFacts.get_Some; [by apply bucket_wf|].
  apply elem_of_bucket; [done|].
  destruct (installed_tagged installed w pkg version Hin) as [b Hb].
  by rewrite <- (tagged_world_at installed w pkg version b Hwf Hb).
Qed.

(** A query that failed is answered with the empty list. *)
Lemma get_required_by_failed pkg w :
  query_failed (pip_show pkg w).1 → (get_required_by pip_show pkg w).1 = [].
Proof.
  unfold get_required_by, query_failed.
  destruct (pip_show pkg w) as [[returncode stdout| |] w']; simpl; [|done..].
  case_bool_decide; [done|]. intros [?|Hlines]; [done|]. simpl.
  induction Hlines as [|line lines Hline _ IH]; [done|].
  simpl. by rewrite Hline.
Qed.

End Classifier.

(** ** The classifier *)

Ltac by_computation := refine (bool_decide_unpack _ _); vm_compute; exact I.
Ltac wf_by_computation := unfold Dict.wf; by_computation.

(** A run on the example: [x] and [y] are asked at even counts and have
    dependents, [six] is asked at an odd count and the query times out,
    [numpy] is declared and not asked about. *)
Example categorize_packages_example :
  categorize_packages alternating_pip_show example_installed example_declared true 0
  = ({| cat_core := [("numpy", "2.0")]; cat_gpu := []; cat_staged := [];
        cat_staged_new := [("six", "1.16")];
        cat_transitive := [("x", "1.0"); ("y", "3.0")] |}, 3).
Proof. by vm_compute. Qed.

(** C1. For every installed mapping, every three declared sets, either
    setting of the transitive check and every behaviour of the
    reverse-dependency lookup (any world, any [pip_show]), the five buckets
    returned by [categorize_packages] are pairwise disjoint, and the union
    of their key sets is the key set of the installed mapping; the union of
    their items is the set of installed items. *)
Theorem categorize_packages_partition {World : Type}
    (pip_show : string → World → run_result * World)
    (installed : Dict.t) (declared : declared_sets) (check_transitive : bool)
    (w : World) :
  Dict.wf installed →
  let cats := (categorize_packages pip_show installed declared check_transitive w).1 in
  (∀ b1 b2 k,
     k ∈ Dict.keys (bucket_of cats b1) → k ∈ Dict.keys (bucket_of cats b2) → b1 = b2)
  ∧ (∀ k, k ∈ Dict.keys installed ↔ ∃ b, k ∈ Dict.keys (bucket_of cats b))
  ∧ (∀ k v, (k, v) ∈ installed ↔ ∃ b, (k, v) ∈ bucket_of cats b).
Proof.
  intros Hwf cats. subst cats. split_and!.
  - intros b1 b2 k [_ ->]%elem_of_bucket_keys [_ ->]%elem_of_bucket_keys; done.
  - intros k. split.
    + intros Hk. eexists. apply elem_of_bucket_keys; [done|]. by split.
    + intros [b [Hk _]%elem_of_bucket_keys]; done.
  - intros k v. split.
    + intros Hin.
      destruct (installed_tagged pip_show declared check_transitive installed w k v Hin)
        as [b Hb].
      exists b. by apply elem_of_bucket.
    + intros [b Hin]. apply elem_of_bucket in Hin; [|done].
      by eapply tagged_installed.
Qed.

Lemma categorize_packages_partition_witness :
  Dict.wf example_installed
  ∧ let cats :=
      (categorize_packages alternating_pip_show example_installed example_declared
         true 0).1 in
    (∀ b1 b2 k,
       k ∈ Dict.keys (bucket_of cats b1) → k ∈ Dict.keys (bucket_of cats b2) → b1 = b2)
    ∧ (∀ k, k ∈ Dict.keys example_installed ↔ ∃ b, k ∈ Dict.keys (bucket_of cats b))
    ∧ (∀ k v, (k, v) ∈ example_installed ↔ ∃ b, (k, v) ∈ bucket_of cats b).
Proof.
  assert (Dict.wf example_installed) as Hwf by wf_by_computation.
  split; [exact Hwf|].
  exact (categorize_packages_partition alternating_pip_show example_installed
           example_declared true 0 Hwf).
Defined.

(** C2. [categorize_packages] files each installed package under the first
    rule that applies, in the order core, gpu, staged, transitive,
    staged_new: the normalized name is in the core set; else in the gpu
    set; else in the staged set; else the transitive check is enabled and
    the query, made in the world that the loop has reached after the
    packages before this one, reports a dependent; else staged_new.  The
    package is stored there with its version and in no other bucket.  In
    particular a package declared in both core and staged is filed under
    core. *)
Theorem categorize_packages_priority {World : Type}
    (pip_show : string → World → run_result * World)
    (pre post : Dict.t) (pkg version : string)
    (declared : declared_sets) (check_transitive : bool) (w : World) :
  Dict.wf (pre ++ (pkg, version) :: post) →
  let cats :=
    (categorize_packages pip_show (pre ++ (pkg, version) :: post) declared
       check_transitive w).1 in
  let reached := (categorize_packages pip_show pre declared check_transitive w).2 in
  let normalized := normalize_package_name pkg in
  let b :=
    priority_rule
      (bool_decide (normalized ∈ decl_core declared))
      (bool_decide (normalized ∈ decl_gpu declared))
      (bool_decide (normalized ∈ decl_staged declared))
      check_transitive (has_dependents pip_show pkg reached) in
  Dict.get (bucket_of cats b) pkg = Some version
  ∧ (∀ b', pkg ∈ Dict.keys (bucket_of cats b') ↔ b' = b)
  ∧ (normalized ∈ decl_core declared → normalized ∈ decl_staged declared →
     b = Core ∧ Dict.get (cat_core cats) pkg = Some version
     ∧ pkg ∉ Dict.keys (cat_staged cats)).
Proof.
  intros Hwf cats reached normalized b.
  assert (Hin : (pkg, version) ∈ pre ++ (pkg, version) :: post) by set_solver.
  assert (Hreached :
    world_at pip_show declared check_transitive (pre ++ (pkg, version) :: post) w pkg
    = reached).
  { apply world_at_prefix. unfold Dict.wf in Hwf.
    rewrite DictFacts.keys_app, DictFacts.keys_cons in Hwf.
    apply NoDup_app in Hwf as (_ & Hdisj & _). intros Hk.
    apply (Hdisj pkg Hk). by left. }
  assert (Hb : ∀ b', pkg ∈ Dict.keys (bucket_of cats b') ↔ b' = b).
  { intros b'. subst cats b normalized.
    rewrite elem_of_bucket_keys, classify_priority, Hreached by done.
    split; [by intros [_ ?]|]. intros ->. split; [|done].
    apply DictFacts.elem_of_keys. eauto. }
  assert (Hget : Dict.get (bucket_of cats b) pkg = Some version).
  { subst cats b normalized. rewrite <- Hreached, <- classify_priority.
    by apply get_bucket. }
  split_and!; [done..|].
  intros Hcore _. assert (b = Core) as Hcore'.
  { subst b. unfold priority_rule. by rewrite bool_decide_eq_true_2. }
  split_and!; [done| |].
  - by rewrite Hcore' in Hget.
  - intros Hst. specialize (proj1 (Hb Staged) Hst). by rewrite Hcore'.
Qed.

Lemma categorize_packages_priority_witness :
  Dict.wf ([("x", "1.0"); ("numpy", "2.0")] ++ ("six", "1.16") :: [("y", "3.0")])
  ∧ let cats :=
      (categorize_packages alternating_pip_show example_installed example_declared
         true 0).1 in
    Dict.get (bucket_of cats StagedNew) "six" = Some "1.16"
    ∧ (∀ b', "six" ∈ Dict.keys (bucket_of cats b') ↔ b' = StagedNew).
Proof.
  assert (Dict.wf ([("x", "1.0"); ("numpy", "2.0")] ++ ("six", "1.16") :: [("y", "3.0")]))
    as Hwf by wf_by_computation.
  split; [exact Hwf|].
  pose proof (categorize_packages_priority alternating_pip_show
                [("x", "1.0"); ("numpy", "2.0")] [("y", "3.0")] "six" "1.16"
                example_declared true 0 Hwf) as (Hget & Hb & _).
  split; [exact Hget|exact Hb].
Defined.

(** C4. A reverse-dependency query that fails (it times out, raises, ends
    with a nonzero status or prints no [Required-by:] line) is answered
    with the empty list, never with an error, and after the one call of
    [pip show]: nothing is tried again.  So when every query that the loop
    makes fails, the transitive bucket is empty and every installed package
    whose normalized name is in no declared set is stored in staged_new.
    Nothing is asked of the packages that are not queried. *)
Theorem reverse_dependency_fail_open {World : Type}
    (pip_show : string → World → run_result * World) :
  (∀ pkg w,
     query_failed (pip_show pkg w).1 →
     get_required_by pip_show pkg w = ([], (pip_show pkg w).2))
  ∧ (∀ (installed : Dict.t) (declared : declared_sets) (check_transitive : bool)
       (w : World),
       Dict.wf installed →
       (∀ pkg,
          pkg ∈ Dict.keys installed →
          is_queried declared check_transitive pkg = true →
          query_failed
            (pip_show pkg
               (world_at pip_show declared check_transitive installed w pkg)).1) →
       let cats :=
         (categorize_packages pip_show installed declared check_transitive w).1 in
       cat_transitive cats = []
       ∧ (∀ pkg version,
            (pkg, version) ∈ installed →
            normalize_package_name pkg ∉ decl_core declared →
            normalize_package_name pkg ∉ decl_gpu declared →
            normalize_package_name pkg ∉ decl_staged declared →
            Dict.get (cat_staged_new cats) pkg = Some version)).
Proof.
  split.
  - intros pkg w Hfail.
    pose proof (get_required_by_failed pip_show pkg w Hfail) as Hnil.
    destruct (get_required_by pip_show pkg w) as [answer w'] eqn:Hget.
    simpl in Hnil. subst answer. f_equal.
    unfold get_required_by in Hget.
    destruct (pip_show pkg w) as [[returncode stdout| |] w'']; simpl;
      [case_bool_decide|..]; by injection Hget.
  - intros installed declared check_transitive w Hwf Hfail cats.
    assert (Hnone : ∀ pkg,
      pkg ∈ Dict.keys installed →
      is_queried declared check_transitive pkg = true →
      has_dependents pip_show pkg
        (world_at pip_show declared check_transitive installed w pkg) = false).
    { intros pkg Hk Hq. unfold has_dependents.
      by rewrite get_required_by_failed by by apply Hfail. }
    split.
    + destruct (cat_transitive cats) as [|[k v] rest] eqn:Hcat; [done|]. exfalso.
      assert (k ∈ Dict.keys (bucket_of cats Transitive)) as Hk.
      { simpl. rewrite Hcat. apply list_elem_of_here. }
      subst cats. apply elem_of_bucket_keys in Hk as [Hk Hb]; [|done].
      rewrite classify_priority in Hb. specialize (Hnone k Hk).
      unfold is_queried, is_declared in Hnone. unfold priority_rule in Hb.
      repeat case_bool_decide; try done.
      destruct check_transitive; [|done]. by rewrite Hnone in Hb.
    + intros pkg version Hin Hcore Hgpu Hstaged.
      pose proof (get_bucket pip_show declared check_transitive installed w pkg version
                    Hwf Hin) as Hget.
      rewrite classify_priority in Hget.
      assert (pkg ∈ Dict.keys installed) as Hk by (apply DictFacts.elem_of_keys; eauto).
      specialize (Hnone pkg Hk). unfold is_queried, is_declared in Hnone.
      unfold priority_rule in Hget.
      rewrite !bool_decide_eq_false_2 in Hget, Hnone by done.
      destruct check_transitive; [|done]. by rewrite Hnone in Hget.
Qed.

(** The lookup answers for the declared [numpy] and fails for every
    package that the loop asks about. *)
Lemma reverse_dependency_fail_open_witness :
  ¬ query_failed (numpy_only_pip_show "numpy" 0).1
  ∧ Dict.wf example_installed
  ∧ (∀ pkg,
       pkg ∈ Dict.keys example_installed →
       is_queried example_declared true pkg = true →
       query_failed
         (numpy_only_pip_show pkg
            (world_at numpy_only_pip_show example_declared true example_installed 0
               pkg)).1)
  ∧ let cats :=
      (categorize_packages numpy_only_pip_show example_installed example_declared
         true 0).1 in
    cat_transitive cats = []
    ∧ Dict.get (cat_staged_new cats) "six" = Some "1.16".
Proof.
  assert (Dict.wf example_installed) as Hwf by wf_by_computation.
  assert (∀ pkg,
            pkg ∈ Dict.keys example_installed →
            is_queried example_declared true pkg = true →
            query_failed
              (numpy_only_pip_show pkg
                 (world_at numpy_only_pip_show example_declared true
                    example_installed 0 pkg)).1) as Hfail.
  { intros pkg Hin Hq. unfold Dict.keys, example_installed in Hin. simpl in Hin.
    repeat (apply elem_of_cons in Hin as [->|Hin]); [| |..].
    - exact I.
    - by vm_compute in Hq.
    - exact I.
    - exact I.
    - by apply elem_of_nil in Hin. }
  split_and!; [|exact Hwf|exact Hfail|].
  - intros [Hrc|Hlines]; [done|]. vm_compute in Hlines.
    inversion Hlines as [|? ? _ Hrest]. inversion Hrest as [|? ? Hline _]. done.
  - pose proof (proj2 (reverse_dependency_fail_open numpy_only_pip_show)
                  example_installed example_declared true 0 Hwf Hfail)
      as (Htr & Hnew).
    split; [exact Htr|]. apply Hnew; by_computation.
Defined.

(** C10. The classification does not look at version strings.  Take two
    installed mappings with the same key set, the same declared sets, and
    a lookup that behaves the same in both runs: every package for which
    the query is made gets an answer of the same truth value in both.
    Then every package name lands in the same bucket in both runs.  The
    versions only show up as the values stored: an item of a bucket is an
    item of the installed mapping it came from. *)
Theorem classification_ignores_versions {World : Type}
    (pip_show : string → World → run_result * World)
    (declared : declared_sets) (check_transitive : bool)
    (installed1 installed2 : Dict.t) (w1 w2 : World) :
  Dict.wf installed1 → Dict.wf installed2 →
  (∀ k, k ∈ Dict.keys installed1 ↔ k ∈ Dict.keys installed2) →
  (∀ k, k ∈ Dict.keys installed1 →
        check_transitive = true →
        normalize_package_name k ∉ decl_core declared →
        normalize_package_name k ∉ decl_gpu declared →
        normalize_package_name k ∉ decl_staged declared →
        has_dependents pip_show k
          (world_at pip_show declared check_transitive installed1 w1 k)
        = has_dependents pip_show k
            (world_at pip_show declared check_transitive installed2 w2 k)) →
  let cats1 := (categorize_packages pip_show installed1 declared check_transitive w1).1 in
  let cats2 := (categorize_packages pip_show installed2 declared check_transitive w2).1 in
  (∀ b k, k ∈ Dict.keys (bucket_of cats1 b) ↔ k ∈ Dict.keys (bucket_of cats2 b))
  ∧ (∀ b k v, (k, v) ∈ bucket_of cats1 b → (k, v) ∈ installed1)
  ∧ (∀ b k v, (k, v) ∈ bucket_of cats2 b → (k, v) ∈ installed2).
Proof.
  intros Hwf1 Hwf2 Hkeys Hsame cats1 cats2. subst cats1 cats2. split_and!.
  - intros b k. rewrite !elem_of_bucket_keys, !classify_priority, <- Hkeys by done.
    assert (k ∈ Dict.keys installed1 →
            priority_rule
              (bool_decide (normalize_package_name k ∈ decl_core declared))
              (bool_decide (normalize_package_name k ∈ decl_gpu declared))
              (bool_decide (normalize_package_name k ∈ decl_staged declared))
              check_transitive
              (has_dependents pip_show k
                 (world_at pip_show declared check_transitive installed1 w1 k))
            = priority_rule
                (bool_decide (normalize_package_name k ∈ decl_core declared))
                (bool_decide (normalize_package_name k ∈ decl_gpu declared))
                (bool_decide (normalize_package_name k ∈ decl_staged declared))
                check_transitive
                (has_dependents pip_show k
                   (world_at pip_show declared check_transitive installed2 w2 k)))
      as Hrule.
    { intros Hk. unfold priority_rule. repeat case_bool_decide; try done.
      destruct check_transitive eqn:Hct; [|done]. by rewrite Hsame. }
    split; intros [Hk ->]; (split; [done|]); [|symmetry]; by apply Hrule.
  - intros b k v Hin. apply elem_of_bucket in Hin; [|done]. by eapply tagged_installed.
  - intros b k v Hin. apply elem_of_bucket in Hin; [|done]. by eapply tagged_installed.
Qed.

Lemma classification_ignores_versions_witness :
  let installed2 : Dict.t :=
    [("y", "0.0.1"); ("six", "2.0"); ("x", "9.9"); ("numpy", "0.1")] in
  Dict.wf example_installed ∧ Dict.wf installed2
  ∧ (∀ k, k ∈ Dict.keys example_installed ↔ k ∈ Dict.keys installed2)
  ∧ ∀ b k,
      k ∈ Dict.keys
            (bucket_of
               (categorize_packages six_pip_show example_installed
                  example_declared true 0).1 b)
      ↔ k ∈ Dict.keys
              (bucket_of
                 (categorize_packages six_pip_show installed2
                    example_declared true 7).1 b).
Proof.
  intros installed2.
  assert (Dict.wf example_installed) as Hwf1 by wf_by_computation.
  assert (Dict.wf installed2) as Hwf2 by wf_by_computation.
  assert (∀ k, k ∈ Dict.keys example_installed ↔ k ∈ Dict.keys installed2) as Hkeys.
  { intros k. unfold Dict.keys, example_installed, installed2. simpl.
    rewrite !elem_of_cons, !elem_of_nil. tauto. }
  split_and!; [exact Hwf1|exact Hwf2|exact Hkeys|].
  refine (proj1 (classification_ignores_versions six_pip_show
                   example_declared true example_installed installed2 0 7
                   Hwf1 Hwf2 Hkeys _)).
  intros k _ _ _ _ _. unfold has_dependents, get_required_by, six_pip_show.
  by destruct (String.eqb k "six").
Defined.

(** ** The exit status *)

Section Main.

Context {World : Type}.
Variable pip_show : string → World → run_result * World.
Variable now_strftime : World → string * World.
Variable read_lines : string → World → option (list string) * World.
Variable load_pyproject : string → World → option manifest * World.
Variable write_text : string → string → World → bool * World.

Abbreviation run_main :=
  (main pip_show now_strftime read_lines load_pyproject write_text).
Abbreviation write_of :=
  (snapshot_write pip_show now_strftime write_text).

(** A listing that cannot be read ends the run at once. *)
Lemma main_read_fails args w :
  (read_lines (arg_freeze args) w).1 = None →
  (run_main args w).1 = uncaught_error "".
Proof.
  unfold main. destruct (read_lines (arg_freeze args) w) as [[lines|] w1]; [done|].
  done.
Qed.

(** So does a manifest that cannot be loaded. *)
Lemma main_load_fails args w lines w1 :
  read_lines (arg_freeze args) w = (Some lines, w1) →
  (load_pyproject (arg_pyproject args) w1).1 = None →
  (run_main args w).1 = uncaught_error "".
Proof.
  unfold main. intros ->.
  destruct (load_pyproject (arg_pyproject args) w1) as [[pyproject|] w2]; [done|].
  done.
Qed.

(** Once both inputs are read, only the snapshot write can raise, and the
    exit status is 1 if it does and else as the staged_new bucket says. *)
Lemma main_run args w lines w1 pyproject w2 :
  read_lines (arg_freeze args) w = (Some lines, w1) →
  load_pyproject (arg_pyproject args) w1 = (Some pyproject, w2) →
  out_traceback (run_main args w).1
  = bool_decide (write_of args lines pyproject w2 = Some false)
  ∧ out_exit (run_main args w).1
    = if bool_decide (write_of args lines pyproject w2 = Some false) then 1%Z
      else if Dict.truthy
                (cat_staged_new
                   (categorize_packages pip_show (load_freeze lines)
                      (get_declared_packages pyproject)
                      (negb (arg_skip_transitive_check args)) w2).1)
           then 1%Z else 0%Z.
Proof.
  unfold main, snapshot_write. intros -> ->. cbv zeta.
  destruct (categorize_packages _ _ _ _ _) as [cats w3]. simpl.
  destruct (now_strftime w3) as [date w4]. simpl.
  destruct (arg_output args) as [path|]; [|done].
  destruct (now_strftime w4) as [date' w5]. simpl.
  by destruct (write_text path _ w5) as [[|] w6].
Qed.

End Main.

(** C3, as the code has it.  A run that reads both inputs and raises no
    error while writing the snapshot exits with status 1 exactly when the
    staged_new bucket is not empty, and with 0 otherwise.  An exception is
    caught nowhere in [main]: when the listing cannot be read, the manifest
    cannot be loaded or the snapshot cannot be written, the run ends with
    a traceback and status 1, whatever the buckets hold.  With the listing
    [x==1.0], all declared sets empty and the transitive check skipped,
    staged_new holds [x] and the status is 1; with the same listing and
    [x] in the core set, staged_new is empty and the status is 0 unless
    the snapshot write raises. *)
Theorem main_exit_status {World : Type}
    (pip_show : string → World → run_result * World)
    (now_strftime : World → string * World)
    (read_lines : string → World → option (list string) * World)
    (load_pyproject : string → World → option manifest * World)
    (write_text : string → string → World → bool * World) :
  (∀ args w lines w1 pyproject w2,
     read_lines (arg_freeze args) w = (Some lines, w1) →
     load_pyproject (arg_pyproject args) w1 = (Some pyproject, w2) →
     let declared := get_declared_packages pyproject in
     let cats :=
       (categorize_packages pip_show (load_freeze lines) declared
          (negb (arg_skip_transitive_check args)) w2).1 in
     let out :=
       (main pip_show now_strftime read_lines load_pyproject write_text args w).1 in
     (out_traceback out = true
      ↔ snapshot_write pip_show now_strftime write_text args lines pyproject w2
        = Some false)
     ∧ (out_traceback out = false →
        (out_exit out = 1%Z ↔ cat_staged_new cats ≠ [])
        ∧ (out_exit out = 0%Z ↔ cat_staged_new cats = []))
     ∧ (out_traceback out = true → out_exit out = 1%Z)
     ∧ (lines = ["x==1.0"] →
        declared = {| decl_core := ∅; decl_gpu := ∅; decl_staged := ∅ |} →
        arg_skip_transitive_check args = true →
        cat_staged_new cats = [("x", "1.0")] ∧ out_exit out = 1%Z)
     ∧ (lines = ["x==1.0"] → "x" ∈ decl_core declared →
        cat_staged_new cats = []
        ∧ (out_traceback out = false → out_exit out = 0%Z)))
  ∧ (∀ args w,
       (read_lines (arg_freeze args) w).1 = None →
       let out :=
         (main pip_show now_strftime read_lines load_pyproject write_text args w).1 in
       out_traceback out = true ∧ out_exit out = 1%Z)
  ∧ (∀ args w lines w1,
       read_lines (arg_freeze args) w = (Some lines, w1) →
       (load_pyproject (arg_pyproject args) w1).1 = None →
       let out :=
         (main pip_show now_strftime read_lines load_pyproject write_text args w).1 in
       out_traceback out = true ∧ out_exit out = 1%Z).
Proof.
  split_and!.
  - intros args w lines w1 pyproject w2 Hread Hload declared cats out.
    destruct (main_run pip_show now_strftime read_lines load_pyproject write_text
                args w lines w1 pyproject w2 Hread Hload) as [Htb Hexit].
    fold declared cats out in Htb, Hexit.
    assert (Hcore : lines = ["x==1.0"] → "x" ∈ decl_core declared →
                    cat_staged_new cats = []).
    { intros -> Hx. subst cats. unfold categorize_packages.
      change (load_freeze ["x==1.0"]) with [("x", "1.0")]. cbn [foldl].
      unfold categorize_item.
      change (normalize_package_name "x") with "x".
      by rewrite bool_decide_eq_true_2. }
    assert (Hnone : lines = ["x==1.0"] →
                    declared = {| decl_core := ∅; decl_gpu := ∅; decl_staged := ∅ |} →
                    arg_skip_transitive_check args = true →
                    cat_staged_new cats = [("x", "1.0")]).
    { intros -> Hd Hskip. subst cats. rewrite Hd, Hskip. by vm_compute. }
    split_and!.
    + rewrite Htb. apply bool_decide_eq_true.
    + intros Hno. rewrite Htb in Hno. rewrite Hexit, Hno.
      destruct (cat_staged_new cats); simpl; split; split; done.
    + intros Hyes. rewrite Htb in Hyes. by rewrite Hexit, Hyes.
    + intros Hl Hd Hskip. split; [by apply Hnone|].
      rewrite Hexit, (Hnone Hl Hd Hskip). by case_bool_decide.
    + intros Hl Hx. split; [by apply Hcore|].
      intros Hno. rewrite Htb in Hno. by rewrite Hexit, Hno, (Hcore Hl Hx).
  - intros args w Hread out. subst out. by rewrite main_read_fails.
  - intros args w lines w1 Hread Hload out. subst out.
    by rewrite (main_load_fails _ _ _ _ _ args w lines w1).
Qed.

(** The listing [x==1.0], a manifest with [x] as a core dependency, and a
    snapshot path that cannot be written: the staged_new bucket is empty
    and the run exits with status 1. *)
Lemma main_exit_status_counterexample :
  ¬ (out_exit
       (main failing_pip_show example_clock example_read_lines
          example_load_pyproject example_write_text
          (example_arguments "core-x.toml" (Some "/nonexistent-dir/snap.toml") false)
          0).1 = 1%Z
     ↔ cat_staged_new
         (categorize_packages failing_pip_show (load_freeze ["x==1.0"])
            (get_declared_packages core_x_manifest) true 0).1 ≠ []).
Proof.
  assert (out_exit
            (main failing_pip_show example_clock example_read_lines
               example_load_pyproject example_write_text
               (example_arguments "core-x.toml" (Some "/nonexistent-dir/snap.toml")
                  false) 0).1 = 1%Z) as Hexit by by vm_compute.
  assert (cat_staged_new
            (categorize_packages failing_pip_show (load_freeze ["x==1.0"])
               (get_declared_packages core_x_manifest) true 0).1 = []) as Hnew
    by by vm_compute.
  intros [Hiff _]. by apply (Hiff Hexit).
Qed.

Lemma main_exit_status_witness :
  example_read_lines "freeze.txt" 0 = (Some ["x==1.0"], 0)
  ∧ example_load_pyproject "core-x.toml" 0 = (Some core_x_manifest, 0)
  ∧ "x" ∈ decl_core (get_declared_packages core_x_manifest)
  ∧ out_traceback
      (main failing_pip_show example_clock example_read_lines
         example_load_pyproject example_write_text
         (example_arguments "core-x.toml" (Some "snap.toml") false) 0).1 = false
  ∧ out_exit
      (main failing_pip_show example_clock example_read_lines
         example_load_pyproject example_write_text
         (example_arguments "core-x.toml" (Some "snap.toml") false) 0).1 = 0%Z.
Proof.
  assert ("x" ∈ decl_core (get_declared_packages core_x_manifest)) as Hx
    by by_computation.
  assert (out_traceback
            (main failing_pip_show example_clock example_read_lines
               example_load_pyproject example_write_text
               (example_arguments "core-x.toml" (Some "snap.toml") false) 0).1
          = false) as Hno by reflexivity.
  split_and!; [reflexivity|reflexivity|exact Hx|exact Hno|].
  pose proof (proj1 (main_exit_status failing_pip_show example_clock
                       example_read_lines example_load_pyproject example_write_text)
                (example_arguments "core-x.toml" (Some "snap.toml") false)
                0 ["x==1.0"] 0 core_x_manifest 0 eq_refl eq_refl)
    as (_ & _ & _ & _ & Hcore).
  exact (proj2 (Hcore eq_refl Hx) Hno).
Defined.

(** ** The declared sets *)

(** The loop over a requirement list adds the non-empty parsed names. *)
Lemma elem_of_add_requirements deps : ∀ (s : gset string) name,
  name ∈ add_requirements s deps ↔ name ∈ s ∨ name ∈ parsed_names deps.
Proof.
  unfold add_requirements, parsed_names.
  induction deps as [|dep deps IH]; intros s name.
  - simpl. rewrite elem_of_nil. naive_solver.
  - cbn [foldl]. rewrite IH, fmap_cons, filter_cons.
    destruct (parse_requirement dep) as [|c r] eqn:Hdep.
    + rewrite decide_False by (intros Hne; by apply Hne). done.
    + rewrite decide_True by done. cbn [Py.truthy].
      rewrite elem_of_cons, elem_of_union, elem_of_singleton. naive_solver.
Qed.

Lemma declared_core m name :
  name ∈ decl_core (get_declared_packages m) ↔ name ∈ parsed_names (manifest_core m).
Proof.
  unfold get_declared_packages, manifest_core. simpl.
  rewrite elem_of_add_requirements.
  destruct (project m) as [[[deps|] opt]|]; simpl; set_solver.
Qed.

Lemma declared_group m name :
  (name ∈ decl_gpu (get_declared_packages m)
   ↔ name ∈ parsed_names (manifest_group "gpu" m))
  ∧ (name ∈ decl_staged (get_declared_packages m)
     ↔ name ∈ parsed_names (manifest_group "staged" m)).
Proof.
  unfold get_declared_packages, manifest_group. simpl.
  rewrite !elem_of_add_requirements.
  destruct (project m) as [[deps [table|]]|]; simpl; set_solver.
Qed.

(** C5, as the code has it.  Each of the three declared sets holds exactly
    the non-empty normalized names parsed from its own list of the manifest
    ([dependencies], and the [gpu] and [staged] groups of
    [optional-dependencies]).  A name listed in two groups is in two sets:
    the sets are pairwise disjoint exactly when no parsed name occurs in
    two of the lists. *)
Theorem declared_sets_of_manifest (m : manifest) :
  let d := get_declared_packages m in
  let core := manifest_core m in
  let gpu := manifest_group "gpu" m in
  let staged := manifest_group "staged" m in
  (∀ name, name ∈ decl_core d ↔ name ∈ parsed_names core)
  ∧ (∀ name, name ∈ decl_gpu d ↔ name ∈ parsed_names gpu)
  ∧ (∀ name, name ∈ decl_staged d ↔ name ∈ parsed_names staged)
  ∧ (declared_disjoint d
     ↔ share_no_name core gpu ∧ share_no_name core staged ∧ share_no_name gpu staged).
Proof.
  intros d core gpu staged.
  assert (Hc : ∀ name, name ∈ decl_core d ↔ name ∈ parsed_names core)
    by (intros; apply declared_core).
  assert (Hg : ∀ name, name ∈ decl_gpu d ↔ name ∈ parsed_names gpu)
    by (intros; apply declared_group).
  assert (Hs : ∀ name, name ∈ decl_staged d ↔ name ∈ parsed_names staged)
    by (intros; apply declared_group).
  split_and!; [done..|].
  unfold declared_disjoint, share_no_name. rewrite !elem_of_disjoint.
  setoid_rewrite Hc. setoid_rewrite Hg. setoid_rewrite Hs. done.
Qed.

(** The manifest that lists [scanpy] under [dependencies] and under the
    staged group yields a core set and a staged set that share it. *)
Lemma declared_sets_overlap :
  "scanpy" ∈ decl_core (get_declared_packages overlapping_manifest)
  ∧ "scanpy" ∈ decl_staged (get_declared_packages overlapping_manifest)
  ∧ ¬ declared_disjoint (get_declared_packages overlapping_manifest).
Proof.
  assert ("scanpy" ∈ decl_core (get_declared_packages overlapping_manifest)) as Hc
    by by_computation.
  assert ("scanpy" ∈ decl_staged (get_declared_packages overlapping_manifest)) as Hs
    by by_computation.
  split_and!; [done..|].
  intros (_ & Hdisj & _). by apply (Hdisj "scanpy").
Qed.

Lemma declared_sets_of_manifest_witness :
  share_no_name (manifest_core core_x_manifest) (manifest_group "gpu" core_x_manifest)
  ∧ declared_disjoint (get_declared_packages core_x_manifest).
Proof.
  assert (share_no_name (manifest_core core_x_manifest)
            (manifest_group "gpu" core_x_manifest)) as Hcg
    by (intros name _ Hin; by apply elem_of_nil in Hin).
  split; [exact Hcg|].
  apply (declared_sets_of_manifest core_x_manifest). split_and!; [exact Hcg|..].
  - intros name _ Hin. by apply elem_of_nil in Hin.
  - intros name Hin _. by apply elem_of_nil in Hin.
Defined.

(** ** The listing parser *)

(** The step of the loop that fills [installed]. *)
Lemma load_freeze_app pre post :
  load_freeze (pre ++ post)
  = foldl (fun installed line =>
             match parse_freeze_line line with
             | Some (name, version) => Dict.set installed name version
             | None => installed
             end) (load_freeze pre) post.
Proof. unfold load_freeze. apply foldl_app. Qed.

Section LoadFreeze.

Let step (installed : Dict.t) (line : string) : Dict.t :=
  match parse_freeze_line line with
  | Some (name, version) => Dict.set installed name version
  | None => installed
  end.

Lemma load_step_wf post : ∀ d, Dict.wf d → Dict.wf (foldl step d post).
Proof.
  induction post as [|line post IH]; intros d Hwf; [done|].
  simpl. apply IH. unfold step.
  destruct (parse_freeze_line line) as [[name version]|]; [|done].
  by apply DictFacts.wf_set.
Qed.

(** Lines that do not name [name] leave its entry alone. *)
Lemma load_step_other post name : ∀ d,
  (∀ line v, line ∈ post → parse_freeze_line line ≠ Some (name, v)) →
  Dict.get (foldl step d post) name = Dict.get d name.
Proof.
  induction post as [|line post IH]; intros d Hpost; [done|].
  simpl. rewrite IH by (intros l v Hl; apply Hpost; by right).
  unfold step. destruct (parse_freeze_line line) as [[name' version]|] eqn:Hline; [|done].
  rewrite DictFacts.get_set. case_decide as Heq; [|done].
  subst name'. destruct (Hpost line version); [by left|done].
Qed.

Lemma load_freeze_wf lines : Dict.wf (load_freeze lines).
Proof. apply load_step_wf. unfold Dict.wf. apply NoDup_nil_2. Qed.

Lemma load_freeze_last pre line post name version :
  parse_freeze_line line = Some (name, version) →
  (∀ l v, l ∈ post → parse_freeze_line l ≠ Some (name, v)) →
  Dict.get (load_freeze (pre ++ line :: post)) name = Some version.
Proof.
  intros Hline Hpost. rewrite load_freeze_app. simpl.
  fold step. rewrite load_step_other by done.
  rewrite Hline, DictFacts.get_set. by rewrite decide_True.
Qed.

Lemma load_freeze_skip pre line post :
  parse_freeze_line line = None →
  load_freeze (pre ++ line :: post) = load_freeze (pre ++ post).
Proof. intros Hline. rewrite !load_freeze_app. simpl. by rewrite Hline. Qed.

End LoadFreeze.

(** A line is skipped exactly when, stripped, it is empty, starts with [#]
    or with [-], or holds no [==]. *)
Lemma parse_freeze_line_None line :
  parse_freeze_line line = None
  ↔ Py.strip line = ""
    ∨ Py.startswith "#" (Py.strip line) = true
    ∨ Py.startswith "-" (Py.strip line) = true
    ∨ Py.contains "==" (Py.strip line) = false.
Proof.
  unfold parse_freeze_line, Py.contains, Py.split1.
  destruct (Py.strip line) as [|c r] eqn:Hs; [naive_solver|].
  change (Py.truthy (String c r)) with true. cbn [negb orb].
  destruct (Py.startswith "#" (String c r)); [naive_solver|].
  destruct (Py.startswith "-" (String c r)) eqn:Hminus; [naive_solver|].
  cbn [orb].
  assert (Py.startswith "-e" (String c r) = false) as ->.
  { cbn [Py.startswith] in *. by destruct (Ascii.eqb "-" c). }
  destruct (Py.partition "==" (String c r)) as [[name version]|]; naive_solver.
Qed.

(** C6. The five listing lines of the example parse to exactly the two
    entries [pkga] and [pkgb].  A line is skipped, without any error,
    exactly when its stripped text is empty, starts with the comment sign
    or with a hyphen (flags and editable installs), or holds no [==];
    skipping it leaves the mapping as it was.  The mapping is a well-formed
    dictionary, and when several lines give the same normalized name the
    last of them decides its version. *)
Theorem listing_parser :
  load_freeze ["# comment"; ""; "-e ./local"; "pkgA==1.2.3"; "pkgB==2.0"]
  = [("pkga", "1.2.3"); ("pkgb", "2.0")]
  ∧ (∀ line,
       parse_freeze_line line = None
       ↔ Py.strip line = ""
         ∨ Py.startswith "#" (Py.strip line) = true
         ∨ Py.startswith "-" (Py.strip line) = true
         ∨ Py.contains "==" (Py.strip line) = false)
  ∧ (∀ pre line post,
       parse_freeze_line line = None →
       load_freeze (pre ++ line :: post) = load_freeze (pre ++ post))
  ∧ (∀ lines, Dict.wf (load_freeze lines))
  ∧ (∀ pre line post name version,
       parse_freeze_line line = Some (name, version) →
       (∀ l v, l ∈ post → parse_freeze_line l ≠ Some (name, v)) →
       Dict.get (load_freeze (pre ++ line :: post)) name = Some version)
  ∧ load_freeze ["Foo_Bar==1.0"; "other==3"; "foo-bar==2.0"]
    = [("foo-bar", "2.0"); ("other", "3")].
Proof.
  split_and!.
  - reflexivity.
  - apply parse_freeze_line_None.
  - apply load_freeze_skip.
  - apply load_freeze_wf.
  - apply load_freeze_last.
  - reflexivity.
Qed.

Lemma listing_parser_witness :
  parse_freeze_line "foo-bar==2.0" = Some ("foo-bar", "2.0")
  ∧ (∀ l v, l ∈ ["other==3"] → parse_freeze_line l ≠ Some ("foo-bar", v))
  ∧ Dict.get (load_freeze (["Foo_Bar==1.0"] ++ "foo-bar==2.0" :: ["other==3"])) "foo-bar"
    = Some "2.0".
Proof.
  assert (parse_freeze_line "foo-bar==2.0" = Some ("foo-bar", "2.0")) as Hline
    by reflexivity.
  assert (∀ l v, l ∈ ["other==3"] → parse_freeze_line l ≠ Some ("foo-bar", v)) as Hpost
    by (intros l v ->%list_elem_of_singleton; discriminate).
  split_and!; [exact Hline|exact Hpost|].
  exact (proj1 (proj2 (proj2 (proj2 (proj2 listing_parser))))
           ["Foo_Bar==1.0"] "foo-bar==2.0" ["other==3"] "foo-bar" "2.0" Hline Hpost).
Defined.

(** ** The snapshot *)

Lemma string_leb_iff (a b : string) :
  String.leb a b = true ↔ String_as_OT.lt a b ∨ a = b.
Proof.
  unfold String.leb. destruct (String.compare a b) eqn:Hcmp.
  - apply String_as_OT.cmp_eq in Hcmp. naive_solver.
  - apply String_as_OT.cmp_lt in Hcmp. naive_solver.
  - split; [done|]. intros [Hlt| ->].
    + apply String_as_OT.cmp_lt in Hlt. unfold String_as_OT.cmp in Hlt. congruence.
    + assert (String.compare b b = Eq) by by apply String_as_OT.cmp_eq. congruence.
Qed.

#[local] Instance name_le_trans : RelationClasses.Transitive name_le.
Proof.
  unfold name_le. intros a b c. rewrite !string_leb_iff.
  intros [H1| ->] [H2| <-]; eauto using String_as_OT.lt_trans.
Qed.

#[local] Instance item_le_total : Total Dict.item_le.
Proof.
  intros a b. unfold Dict.item_le, Dict.item_lt, String.ltb.
  rewrite (String.compare_antisym a.1 b.1), (String.compare_antisym a.2 b.2).
  destruct (String.compare b.1 a.1), (String.compare b.2 a.2); simpl; auto.
Qed.

(** Items in tuple order are in the order of their names. *)
Lemma item_le_name_le a b : Dict.item_le a b → name_le a b.
Proof.
  unfold Dict.item_le, Dict.item_lt, name_le, String.leb.
  rewrite (String.compare_antisym a.1 b.1).
  by destruct (String.compare b.1 a.1).
Qed.

Lemma Sorted_weaken {A} (R1 R2 : relation A) (l : list A) :
  (∀ a b, R1 a b → R2 a b) → Sorted R1 l → Sorted R2 l.
Proof.
  intros HR. induction 1 as [|x l _ IH Hhd]; constructor; [done|].
  destruct Hhd; constructor. by apply HR.
Qed.

Lemma sorted_items_permutation (d : Dict.t) : Dict.sorted_items d ≡ₚ d.
Proof. apply merge_sort_Permutation. Qed.

Lemma sorted_items_sorted (d : Dict.t) : StronglySorted name_le (Dict.sorted_items d).
Proof.
  apply Sorted_StronglySorted; [apply _|].
  apply (Sorted_weaken Dict.item_le); [apply item_le_name_le|].
  apply Sorted_merge_sort, _.
Qed.

(** C9. For every installed mapping the snapshot is, line by line: five
    comment lines (title, cluster, version, date, number of packages), a
    blank line, the line [[packages]], and then one line [name = "version"]
    for each installed item, in the order of the package names.  For the
    mapping of [a] to 1.0 and [b] to 2.0, in either insertion order, the
    entries after the header are [a = "1.0"] and then [b = "2.0"]. *)
Theorem generate_snapshot_layout :
  (∀ installed cluster version date,
     ∃ items,
       generate_snapshot installed cluster version date
       = Py.join (String Py.LF "")
           ([ "# Python package snapshot";
              "# Cluster: " +:+ cluster;
              "# Bioc Version: " +:+ version;
              "# Date: " +:+ date;
              "# Packages: " +:+ Py.str_of_nat (length installed);
              "";
              "[packages]" ]
            ++ ((fun item => item.1 +:+ " = " +:+ quoted item.2) <$> items))
       ∧ items ≡ₚ installed
       ∧ StronglySorted name_le items)
  ∧ (∀ installed cluster version date,
       (installed = [("a", "1.0"); ("b", "2.0")]
        ∨ installed = [("b", "2.0"); ("a", "1.0")]) →
       generate_snapshot installed cluster version date
       = Py.join (String Py.LF "")
           [ "# Python package snapshot";
             "# Cluster: " +:+ cluster;
             "# Bioc Version: " +:+ version;
             "# Date: " +:+ date;
             "# Packages: 2";
             "";
             "[packages]";
             "a = " +:+ quoted "1.0";
             "b = " +:+ quoted "2.0" ]).
Proof.
  split.
  - intros installed cluster version date. exists (Dict.sorted_items installed).
    split_and!; [done|apply sorted_items_permutation|apply sorted_items_sorted].
  - by intros installed cluster version date [-> | ->].
Qed.

Lemma generate_snapshot_layout_witness :
  generate_snapshot [("b", "2.0"); ("a", "1.0")] "gemini" "3.19" "2026-01-01 00:00"
  = Py.join (String Py.LF "")
      [ "# Python package snapshot";
        "# Cluster: gemini";
        "# Bioc Version: 3.19";
        "# Date: 2026-01-01 00:00";
        "# Packages: 2";
        "";
        "[packages]";
        "a = " +:+ quoted "1.0";
        "b = " +:+ quoted "2.0" ].
Proof.
  exact (proj2 generate_snapshot_layout [("b", "2.0"); ("a", "1.0")]
           "gemini" "3.19" "2026-01-01 00:00" (or_intror eq_refl)).
Defined.

(** ** Strings *)

Module StringFacts.

Ltac each_char c := destruct c as [[] [] [] [] [] [] [] []]; vm_compute; done.

Lemma name_char_not_space c : Re.is_name_char c = true → Py.isspace c = false.
Proof. each_char c. Qed.

Lemma name_char_not_lbracket c : Re.is_name_char c = true → Ascii.eqb c "[" = false.
Proof. each_char c. Qed.

Lemma lower_char_sep c : Re.is_sep (Py.lower_char c) = Re.is_sep c.
Proof. each_char c. Qed.

Lemma lower_char_hyphen c : Ascii.eqb (Py.lower_char c) "-" = Ascii.eqb c "-".
Proof. each_char c. Qed.

Lemma lower_char_not_upper c : is_ascii_upper (Py.lower_char c) = false.
Proof. each_char c. Qed.

Lemma not_sep_not_hyphen c : Re.is_sep c = false → Ascii.eqb c "-" = false.
Proof. unfold Re.is_sep. by destruct (Ascii.eqb c "-"). Qed.

Lemma append_cons c (s r : string) : String c s +:+ r = String c (s +:+ r).
Proof. reflexivity. Qed.

Lemma append_nil_l (s : string) : "" +:+ s = s.
Proof. reflexivity. Qed.

Ltac push_append := rewrite ?append_cons, ?append_nil_l.

Lemma lower_app a b : Py.lower (a +:+ b) = Py.lower a +:+ Py.lower b.
Proof.
  induction a as [|c a IH]; [done|]. push_append. simpl. by rewrite IH.
Qed.

Lemma lower_truthy s : Py.truthy (Py.lower s) = Py.truthy s.
Proof.
  by destruct s.
Qed.

(** *** Collapsing the runs of separators *)

Lemma sub_seps_no_sep s : ∀ f,
  all_chars (fun c => negb (Re.is_sep c)) s = true → Re.sub_seps_from f s = s.
Proof.
  induction s as [|c s IH]; intros f; [done|]. simpl.
  destruct (Re.is_sep c); [done|]. simpl. intros Hs. by rewrite IH.
Qed.

Lemma sub_seps_app_word a : ∀ f r,
  a ≠ "" → last_is Re.is_sep a = false →
  Re.sub_seps_from f (a +:+ r) = Re.sub_seps_from f a +:+ Re.sub_seps_from false r.
Proof.
  induction a as [|c a IH]; intros f r Hne Hlast; [done|].
  destruct a as [|c' a'].
  - push_append. simpl in *. rewrite Hlast. by push_append.
  - change (last_is Re.is_sep (String c (String c' a')))
      with (last_is Re.is_sep (String c' a')) in Hlast.
    assert (String c' a' ≠ "") as Hne' by done.
    remember (String c' a') as a1 eqn:Ha1. clear Ha1.
    rewrite append_cons. cbn [Re.sub_seps_from].
    destruct (Re.is_sep c), f; rewrite ?append_cons; by rewrite IH.
Qed.

Lemma sub_seps_after_run run : ∀ r,
  all_chars Re.is_sep run = true → head_is Re.is_sep r = false →
  Re.sub_seps_from true (run +:+ r) = Re.sub_seps_from false r.
Proof.
  induction run as [|c run IH]; intros r Hrun Hr; push_append.
  - destruct r as [|c r]; [done|]. simpl in *. by rewrite Hr.
  - simpl in *. apply andb_true_iff in Hrun as [-> Hrun]. by apply IH.
Qed.

Lemma sub_seps_run run r :
  run ≠ "" → all_chars Re.is_sep run = true → head_is Re.is_sep r = false →
  Re.sub_seps_from false (run +:+ r) = String "-" (Re.sub_seps_from false r).
Proof.
  destruct run as [|c run]; [done|]. intros _ Hrun Hr. push_append. simpl in *.
  apply andb_true_iff in Hrun as [-> Hrun]. by rewrite sub_seps_after_run.
Qed.

Lemma sub_seps_collapsed s : ∀ f, collapsed_from f (Re.sub_seps_from f s) = true.
Proof.
  induction s as [|c s IH]; intros f; [done|]. simpl.
  destruct (Re.is_sep c) eqn:Hc.
  - destruct f; [apply IH|]. simpl. apply IH.
  - simpl. by rewrite not_sep_not_hyphen, Hc, IH.
Qed.

Lemma lower_collapsed s : ∀ f, collapsed_from f (Py.lower s) = collapsed_from f s.
Proof.
  induction s as [|c s IH]; intros f; [done|]. simpl.
  by rewrite lower_char_hyphen, lower_char_sep, !IH.
Qed.

Lemma lower_no_upper s : all_chars (fun c => negb (is_ascii_upper c)) (Py.lower s) = true.
Proof.
  induction s as [|c s IH]; [done|]. simpl. by rewrite lower_char_not_upper, IH.
Qed.

Lemma sub_seps_truthy s : Py.truthy (Re.sub_seps s) = Py.truthy s.
Proof.
  destruct s as [|c s]; [done|]. unfold Re.sub_seps. simpl. by destruct (Re.is_sep c).
Qed.

(** *** Requirement strings *)

Lemma sub_extras_name name : ∀ r,
  all_chars Re.is_name_char name = true →
  Re.sub_extras_from 0 (name +:+ r) = name +:+ Re.sub_extras_from 0 r.
Proof.
  induction name as [|c name IH]; intros r Hname; [done|]. push_append.
  simpl in *. apply andb_true_iff in Hname as [Hc Hname].
  by rewrite (name_char_not_lbracket c Hc), IH.
Qed.

Lemma lazy_any_rbracket_extras extras : ∀ r,
  all_chars is_extras_char extras = true →
  Re.lazy_any_rbracket (extras +:+ String "]" r) = Some (S (String.length extras)).
Proof.
  induction extras as [|c extras IH]; intros r Hex; [done|]. push_append.
  simpl in *. apply andb_true_iff in Hex as [Hc Hex]. unfold is_extras_char in Hc.
  destruct (Ascii.eqb c "]"); [done|]. destruct (Ascii.eqb c Py.LF); [done|].
  by rewrite IH.
Qed.

Lemma sub_extras_skip x : ∀ c r,
  Re.sub_extras_from (S (String.length x)) (x +:+ String c r) = Re.sub_extras_from 0 r.
Proof. induction x as [|a x IH]; intros c r; [done|]. push_append. simpl. apply IH. Qed.

Lemma sub_extras_no_bracket r :
  all_chars not_lbracket r = true → Re.sub_extras_from 0 r = r.
Proof.
  induction r as [|c r IH]; [done|]. simpl. unfold not_lbracket at 1.
  destruct (Ascii.eqb c "["); [done|]. simpl. intros Hr. by rewrite IH.
Qed.

(** The extras suffix goes, the name and the rest stay. *)
Lemma sub_extras_requirement name extras rest :
  all_chars Re.is_name_char name = true →
  all_chars is_extras_char extras = true →
  all_chars not_lbracket rest = true →
  Re.sub_extras (name +:+ "[" +:+ extras +:+ "]" +:+ rest) = name +:+ rest.
Proof.
  intros Hname Hex Hrest. unfold Re.sub_extras.
  rewrite sub_extras_name by done. f_equal.
  change ("[" +:+ extras +:+ "]" +:+ rest) with (String "[" (extras +:+ String "]" rest)).
  cbn [Re.sub_extras_from]. change (Ascii.eqb "[" "[") with true. cbv iota.
  rewrite lazy_any_rbracket_extras by done.
  rewrite sub_extras_skip. by apply sub_extras_no_bracket.
Qed.

Lemma rstrip_name name : ∀ r,
  all_chars Re.is_name_char name = true →
  Py.rstrip (name +:+ r) = name +:+ Py.rstrip r.
Proof.
  induction name as [|c name IH]; intros r Hname; [done|]. push_append.
  simpl in *. apply andb_true_iff in Hname as [Hc Hname].
  by rewrite (name_char_not_space c Hc), IH.
Qed.

Lemma lstrip_name name r :
  name ≠ "" → all_chars Re.is_name_char name = true →
  Py.lstrip (name +:+ r) = name +:+ r.
Proof.
  destruct name as [|c name]; [done|]. intros _ Hname. push_append.
  simpl in *. apply andb_true_iff in Hname as [Hc Hname].
  by rewrite (name_char_not_space c Hc).
Qed.

Lemma head_is_rstrip p r : head_is p r = false → head_is p (Py.rstrip r) = false.
Proof.
  destruct r as [|c r]; [done|]. simpl.
  by destruct (Py.isspace c && negb (Py.truthy (Py.rstrip r))).
Qed.

Lemma take_name_app name : ∀ r,
  all_chars Re.is_name_char name = true → head_is Re.is_name_char r = false →
  Re.take_name (name +:+ r) = name.
Proof.
  induction name as [|c name IH]; intros r Hname Hr; push_append.
  - destruct r as [|c r]; [done|]. simpl in *. by rewrite Hr.
  - simpl in *. apply andb_true_iff in Hname as [-> Hname]. by rewrite IH.
Qed.

Lemma take_name_empty s : Re.take_name s = "" ↔ head_is Re.is_name_char s = false.
Proof. destruct s as [|c s]; [done|]. simpl. by destruct (Re.is_name_char c). Qed.

Lemma normalize_empty s : normalize_package_name s = "" ↔ s = "".
Proof.
  unfold normalize_package_name. split; [|by intros ->].
  intros Hn. apply (f_equal Py.truthy) in Hn.
  rewrite lower_truthy, sub_seps_truthy in Hn. by destruct s.
Qed.

Lemma parse_requirement_token req :
  parse_requirement req
  = normalize_package_name (Re.take_name (Py.strip (Re.sub_extras req))).
Proof.
  unfold parse_requirement, Re.match_name.
  by destruct (Re.take_name (Py.strip (Re.sub_extras req))).
Qed.

(** *** Deleting the extras, at any place *)

Lemma append_assoc (a b c : string) : (a +:+ b) +:+ c = a +:+ b +:+ c.
Proof. induction a as [|x a IH]; [done|]. push_append. by rewrite IH. Qed.

Lemma all_chars_append p a b : all_chars p (a +:+ b) = all_chars p a && all_chars p b.
Proof.
  induction a as [|c a IH]; [done|]. push_append. simpl. by rewrite IH, andb_assoc.
Qed.

Lemma all_chars_impl (p q : ascii → bool) s :
  (∀ c, p c = true → q c = true) → all_chars p s = true → all_chars q s = true.
Proof.
  intros Hpq. induction s as [|c s IH]; [done|]. simpl.
  intros [Hc Hs]%andb_true_iff. by rewrite (Hpq c Hc), IH.
Qed.

Lemma space_not_lbracket c : Py.isspace c = true → not_lbracket c = true.
Proof. each_char c. Qed.

Lemma name_not_lbracket c : Re.is_name_char c = true → not_lbracket c = true.
Proof. each_char c. Qed.

(** Text without an opening bracket is copied. *)
Lemma sub_extras_prefix a : ∀ r,
  all_chars not_lbracket a = true →
  Re.sub_extras_from 0 (a +:+ r) = a +:+ Re.sub_extras_from 0 r.
Proof.
  induction a as [|c a IH]; intros r Ha; [done|]. push_append.
  simpl in *. apply andb_true_iff in Ha as [Hc Ha]. unfold not_lbracket in Hc.
  apply negb_true_iff in Hc. by rewrite Hc, IH.
Qed.

(** A bracket closed before the end of its line goes, with what it holds. *)
Lemma sub_extras_group e r :
  all_chars is_extras_char e = true →
  Re.sub_extras_from 0 (String "[" (e +:+ String "]" r)) = Re.sub_extras_from 0 r.
Proof.
  intros He. cbn [Re.sub_extras_from]. change (Ascii.eqb "[" "[") with true. cbv iota.
  by rewrite lazy_any_rbracket_extras, sub_extras_skip.
Qed.

Lemma lazy_none_line e r :
  all_chars is_extras_char e = true →
  Re.lazy_any_rbracket (e +:+ String Py.LF r) = None.
Proof.
  induction e as [|c e IH]; [done|]. push_append. simpl.
  intros [Hc He]%andb_true_iff. unfold is_extras_char in Hc.
  destruct (Ascii.eqb c "]"); [done|]. destruct (Ascii.eqb c Py.LF); [done|].
  by rewrite IH.
Qed.

Lemma lazy_none_end e :
  all_chars is_extras_char e = true → Re.lazy_any_rbracket e = None.
Proof.
  induction e as [|c e IH]; [done|]. simpl.
  intros [Hc He]%andb_true_iff. unfold is_extras_char in Hc.
  destruct (Ascii.eqb c "]"); [done|]. destruct (Ascii.eqb c Py.LF); [done|].
  by rewrite IH.
Qed.

(** A bracket that is not closed before the end of its line stays. *)
Lemma sub_extras_open_line e : ∀ r,
  all_chars is_extras_char e = true →
  Re.sub_extras_from 0 (e +:+ String Py.LF r)
  = e +:+ String Py.LF (Re.sub_extras_from 0 r).
Proof.
  induction e as [|c e IH]; intros r He; [done|]. push_append.
  simpl in He. apply andb_true_iff in He as [Hc He].
  cbn [Re.sub_extras_from]. rewrite lazy_none_line, IH by done.
  by destruct (Ascii.eqb c "[").
Qed.

Lemma sub_extras_open_end e :
  all_chars is_extras_char e = true → Re.sub_extras_from 0 e = e.
Proof.
  induction e as [|c e IH]; [done|]. simpl.
  intros [Hc He]%andb_true_iff. rewrite lazy_none_end, IH by done.
  by destruct (Ascii.eqb c "[").
Qed.

(** *** Blanks around a requirement *)

Lemma rstrip_space_prefix ws x :
  Py.rstrip x ≠ "" → Py.rstrip (ws +:+ x) = ws +:+ Py.rstrip x.
Proof.
  intros Hx. induction ws as [|c ws IH]; [done|]. push_append. simpl.
  rewrite IH. destruct (ws +:+ Py.rstrip x) as [|c' r] eqn:Hr.
  - destruct ws; [by rewrite append_nil_l in Hr|done].
  - simpl. by rewrite andb_false_r.
Qed.

Lemma lstrip_space_prefix ws x :
  all_chars Py.isspace ws = true → Py.lstrip (ws +:+ x) = Py.lstrip x.
Proof.
  induction ws as [|c ws IH]; [done|]. push_append. simpl.
  intros [-> Hws]%andb_true_iff. by apply IH.
Qed.

(** The token of a requirement: blanks, a name, and something that is not
    part of a name. *)
Lemma take_name_requirement ws name rest :
  all_chars Py.isspace ws = true →
  name ≠ "" → all_chars Re.is_name_char name = true →
  head_is Re.is_name_char rest = false →
  Re.take_name (Py.strip (ws +:+ name +:+ rest)) = name.
Proof.
  intros Hws Hne Hname Hrest. unfold Py.strip.
  assert (Py.rstrip (name +:+ rest) = name +:+ Py.rstrip rest) as Hr
    by by apply rstrip_name.
  rewrite rstrip_space_prefix, Hr by (rewrite Hr; by destruct name).
  rewrite lstrip_space_prefix, lstrip_name by done.
  apply take_name_app; [done|]. by apply head_is_rstrip.
Qed.

End StringFacts.

(** C8. [normalize_package_name] lower-cases its input and turns every run
    of hyphens, underscores and full stops into one hyphen.  The three
    spellings of the example all give [foo-bar-baz].  A name without
    separators is just lower-cased; a run of separators between two parts
    becomes one hyphen between the normalized parts; the result holds no
    underscore, no full stop, no two hyphens in a row and no capital
    letter A-Z. *)
Theorem normalize_package_name_spec :
  normalize_package_name "Foo_Bar.Baz" = "foo-bar-baz"
  ∧ normalize_package_name "foo-bar-baz" = "foo-bar-baz"
  ∧ normalize_package_name "FOO--BAR..BAZ" = "foo-bar-baz"
  ∧ (∀ s, all_chars (fun c => negb (Re.is_sep c)) s = true →
          normalize_package_name s = Py.lower s)
  ∧ (∀ a run b,
       run ≠ "" → all_chars Re.is_sep run = true →
       last_is Re.is_sep a = false → head_is Re.is_sep b = false →
       normalize_package_name (a +:+ run +:+ b)
       = normalize_package_name a +:+ "-" +:+ normalize_package_name b)
  ∧ (∀ s, collapsed (normalize_package_name s) = true
          ∧ all_chars (fun c => negb (is_ascii_upper c)) (normalize_package_name s)
            = true).
Proof.
  split_and!; [reflexivity..| | |].
  - intros s Hs. unfold normalize_package_name, Re.sub_seps.
    by rewrite StringFacts.sub_seps_no_sep.
  - intros a run b Hne Hrun Ha Hb. unfold normalize_package_name, Re.sub_seps.
    destruct (decide (a = "")) as [->|Hane].
    + rewrite StringFacts.append_nil_l, StringFacts.sub_seps_run by done. done.
    + rewrite StringFacts.sub_seps_app_word, StringFacts.sub_seps_run by done.
      by rewrite StringFacts.lower_app.
  - intros s. unfold normalize_package_name, collapsed, Re.sub_seps. split.
    + by rewrite StringFacts.lower_collapsed, StringFacts.sub_seps_collapsed.
    + apply StringFacts.lower_no_upper.
Qed.

Lemma normalize_package_name_spec_witness :
  normalize_package_name ("FOO" +:+ "-_." +:+ "Bar")
  = normalize_package_name "FOO" +:+ "-" +:+ normalize_package_name "Bar".
Proof.
  apply (proj1 (proj2 (proj2 (proj2 (proj2 normalize_package_name_spec)))));
    [discriminate|reflexivity..].
Defined.

(** C7. [parse_requirement] deletes the bracketed extras, strips the
    result, takes the leading run of letters, digits, underscores and
    hyphens and normalizes it; it returns the empty string exactly when the
    stripped text does not start with such a character.  The deletion
    copies text without an opening bracket, removes a bracket that is
    closed before the end of its line together with what it holds, and
    leaves a bracket that is not closed on its line; it does so wherever
    the bracket stands, before, inside or after the name.  So a
    requirement made of blanks, a name with an extras group in brackets
    anywhere in it, and a version specifier parses to the normalized name:
    [scanpy[cuda12]>=1.10] gives [scanpy], and [###] gives the empty
    string. *)
Theorem parse_requirement_spec :
  parse_requirement "scanpy[cuda12]>=1.10" = "scanpy"
  ∧ parse_requirement "###" = ""
  ∧ (∀ req,
       parse_requirement req
       = normalize_package_name (Re.take_name (Py.strip (Re.sub_extras req))))
  ∧ (∀ req,
       parse_requirement req = ""
       ↔ head_is Re.is_name_char (Py.strip (Re.sub_extras req)) = false)
  ∧ (∀ name extras rest,
       name ≠ "" →
       all_chars Re.is_name_char name = true →
       all_chars is_extras_char extras = true →
       all_chars not_lbracket rest = true →
       head_is Re.is_name_char rest = false →
       parse_requirement (name +:+ "[" +:+ extras +:+ "]" +:+ rest)
       = normalize_package_name name
       ∧ parse_requirement (name +:+ rest) = normalize_package_name name)
  ∧ (∀ a r,
       all_chars not_lbracket a = true →
       Re.sub_extras (a +:+ r) = a +:+ Re.sub_extras r)
  ∧ (∀ extras r,
       all_chars is_extras_char extras = true →
       Re.sub_extras ("[" +:+ extras +:+ "]" +:+ r) = Re.sub_extras r)
  ∧ (∀ open r,
       all_chars is_extras_char open = true →
       Re.sub_extras (open +:+ String Py.LF r) = open +:+ String Py.LF (Re.sub_extras r)
       ∧ Re.sub_extras open = open)
  ∧ (∀ blanks name1 extras name2 rest,
       all_chars Py.isspace blanks = true →
       name1 +:+ name2 ≠ "" →
       all_chars Re.is_name_char name1 = true →
       all_chars Re.is_name_char name2 = true →
       all_chars is_extras_char extras = true →
       all_chars not_lbracket rest = true →
       head_is Re.is_name_char rest = false →
       parse_requirement
         (blanks +:+ name1 +:+ "[" +:+ extras +:+ "]" +:+ name2 +:+ rest)
       = normalize_package_name (name1 +:+ name2))
  ∧ parse_requirement "[x]pkg" = "pkg"
  ∧ parse_requirement "pkg[a]x[b]>=1" = "pkgx"
  ∧ parse_requirement "  Foo_Bar-2 [extra] == 1.0  " = "foo-bar-2"
  ∧ parse_requirement "[unclosed" = ""
  ∧ parse_requirement ("a[b" +:+ String Py.LF "c]d") = "a"
  ∧ parse_requirement ("caf" +:+ String (ascii_of_nat 233) "") = "caf".
Proof.
  split_and!;
    [reflexivity|reflexivity| | | | | | |
    |reflexivity|reflexivity|reflexivity|reflexivity|reflexivity|reflexivity].
  - apply StringFacts.parse_requirement_token.
  - intros req. rewrite StringFacts.parse_requirement_token,
      StringFacts.normalize_empty. apply StringFacts.take_name_empty.
  - intros name extras rest Hne Hname Hex Hrest Hhead.
    assert (Re.take_name (Py.strip (name +:+ rest)) = name) as Htok.
    { unfold Py.strip. rewrite StringFacts.rstrip_name, StringFacts.lstrip_name by done.
      apply StringFacts.take_name_app; [done|]. by apply StringFacts.head_is_rstrip. }
    rewrite !StringFacts.parse_requirement_token.
    rewrite StringFacts.sub_extras_requirement by done.
    unfold Re.sub_extras at 1.
    rewrite StringFacts.sub_extras_name, StringFacts.sub_extras_no_bracket by done.
    by rewrite Htok.
  - intros a r Ha. by apply StringFacts.sub_extras_prefix.
  - intros extras r Hex. by apply StringFacts.sub_extras_group.
  - intros open r Hopen. split.
    + by apply StringFacts.sub_extras_open_line.
    + by apply StringFacts.sub_extras_open_end.
  - intros blanks name1 extras name2 rest Hblanks Hne Hn1 Hn2 Hex Hrest Hhead.
    rewrite StringFacts.parse_requirement_token. unfold Re.sub_extras.
    rewrite StringFacts.sub_extras_prefix
      by (eapply StringFacts.all_chars_impl;
          [apply StringFacts.space_not_lbracket|done]).
    rewrite StringFacts.sub_extras_prefix
      by (eapply StringFacts.all_chars_impl;
          [apply StringFacts.name_not_lbracket|done]).
    change ("[" +:+ extras +:+ "]" +:+ name2 +:+ rest)
      with (String "[" (extras +:+ String "]" (name2 +:+ rest))).
    rewrite StringFacts.sub_extras_group by done.
    rewrite StringFacts.sub_extras_prefix
      by (eapply StringFacts.all_chars_impl;
          [apply StringFacts.name_not_lbracket|done]).
    rewrite StringFacts.sub_extras_no_bracket by done.
    rewrite <- (StringFacts.append_assoc name1 name2 rest).
    rewrite StringFacts.take_name_requirement; [done..| |done].
    by rewrite StringFacts.all_chars_append, Hn1, Hn2.
Qed.

Lemma parse_requirement_spec_witness :
  parse_requirement ("Scanpy_Tools" +:+ "[" +:+ "cuda12,dev" +:+ "]" +:+ " >= 1.10 ")
  = normalize_package_name "Scanpy_Tools"
  ∧ parse_requirement ("Scanpy_Tools" +:+ " >= 1.10 ")
    = normalize_package_name "Scanpy_Tools"
  ∧ parse_requirement
      ("  " +:+ "Scanpy_" +:+ "[" +:+ "cuda12,dev" +:+ "]" +:+ "Tools" +:+ " >= 1.10 ")
    = normalize_package_name ("Scanpy_" +:+ "Tools")
  ∧ parse_requirement ("" +:+ "" +:+ "[" +:+ "x" +:+ "]" +:+ "pkg" +:+ "")
    = normalize_package_name ("" +:+ "pkg").
Proof.
  destruct parse_requirement_spec as (_ & _ & _ & _ & Hname & _ & _ & _ & Hany & _).
  destruct (Hname "Scanpy_Tools" "cuda12,dev" " >= 1.10 ") as [H1 H2];
    [discriminate|reflexivity..|].
  split_and!; [exact H1|exact H2|..].
  - apply Hany; [reflexivity|discriminate|reflexivity..].
  - apply Hany; [reflexivity|discriminate|reflexivity..].
Defined.

(** * Further properties of the script *)

(** ** Normal forms *)

Module NormalForm.

Lemma lower_char_idem c : Py.lower_char (Py.lower_char c) = Py.lower_char c.
Proof. StringFacts.each_char c. Qed.

Lemma lower_idem s : Py.lower (Py.lower s) = Py.lower s.
Proof.
  induction s as [|c s IH]; [done|]. simpl. by rewrite lower_char_idem, IH.
Qed.

Lemma hyphen_is_sep c : Ascii.eqb c "-" = true → Re.is_sep c = true.
Proof. unfold Re.is_sep. by intros ->. Qed.

(** A string whose separators are single hyphens has no run to collapse. *)
Lemma sub_seps_of_collapsed s : ∀ f,
  collapsed_from f s = true → Re.sub_seps_from f s = s.
Proof.
  induction s as [|c s IH]; intros f; [done|]. simpl.
  destruct (Ascii.eqb c "-") eqn:Hc.
  - rewrite (hyphen_is_sep c Hc). apply Ascii.eqb_eq in Hc as ->.
    destruct f; [done|]. simpl. intros Hs. by rewrite IH.
  - destruct (Re.is_sep c); [done|]. simpl. intros Hs. by rewrite IH.
Qed.

Lemma normalize_idem s :
  normalize_package_name (normalize_package_name s) = normalize_package_name s.
Proof.
  unfold normalize_package_name, Re.sub_seps.
  rewrite sub_seps_of_collapsed.
  - apply lower_idem.
  - by rewrite StringFacts.lower_collapsed, StringFacts.sub_seps_collapsed.
Qed.

Lemma parse_requirement_normal req : in_normal_form (parse_requirement req).
Proof.
  unfold in_normal_form. rewrite StringFacts.parse_requirement_token.
  apply normalize_idem.
Qed.

Lemma parsed_names_normal deps name :
  name ∈ parsed_names deps → name ≠ "" ∧ in_normal_form name.
Proof.
  unfold parsed_names.
  intros [Hne [dep [-> _]]%list_elem_of_fmap]%list_elem_of_filter.
  split; [done|apply parse_requirement_normal].
Qed.

End NormalForm.

(** X1. Normalizing a name twice is the same as normalizing it once: the
    result of [normalize_package_name] is a fixed point of it, so names
    that were normalized on different paths can be compared as they are. *)
Theorem normalize_package_name_idempotent (name : string) :
  normalize_package_name (normalize_package_name name) = normalize_package_name name.
Proof. apply NormalForm.normalize_idem. Qed.

(** X2. Every name in a declared set (core, gpu or staged) is non-empty and
    in normal form, whatever the manifest holds: entries without a name
    are skipped and the others are stored normalized. *)
Theorem declared_names_normal (m : manifest) (name : string) :
  name ∈ decl_core (get_declared_packages m)
  ∨ name ∈ decl_gpu (get_declared_packages m)
  ∨ name ∈ decl_staged (get_declared_packages m) →
  name ≠ "" ∧ in_normal_form name.
Proof.
  rewrite declared_core, (proj1 (declared_group m name)),
    (proj2 (declared_group m name)).
  intros [H|[H|H]]; by apply NormalForm.parsed_names_normal in H.
Qed.

Lemma declared_names_normal_witness :
  "scanpy" ∈ decl_core (get_declared_packages overlapping_manifest)
  ∧ "scanpy" ≠ "" ∧ in_normal_form "scanpy".
Proof.
  assert ("scanpy" ∈ decl_core (get_declared_packages overlapping_manifest)) as Hin
    by by_computation.
  split; [exact Hin|].
  exact (declared_names_normal overlapping_manifest "scanpy" (or_introl Hin)).
Defined.

(** X3. Only the [gpu] and [staged] groups of [optional-dependencies] are
    read: adding, changing or removing any other group leaves the three
    declared sets as they were. *)
Theorem other_groups_ignored (deps : option (list string))
    (table : gmap string (list string)) (group : string) (reqs : list string) :
  group ≠ "gpu" → group ≠ "staged" →
  get_declared_packages (manifest_of deps (<[group := reqs]> table))
  = get_declared_packages (manifest_of deps table)
  ∧ get_declared_packages (manifest_of deps (delete group table))
    = get_declared_packages (manifest_of deps table).
Proof.
  intros Hgpu Hstaged. unfold get_declared_packages, manifest_of. simpl.
  by rewrite !lookup_insert_ne, !lookup_delete_ne.
Qed.

Lemma other_groups_ignored_witness :
  "dev" ≠ "gpu" ∧ "dev" ≠ "staged"
  ∧ get_declared_packages
      (manifest_of (Some ["numpy"]) (<["dev" := ["pytest"]]> {[ "gpu" := ["cupy"] ]}))
    = get_declared_packages (manifest_of (Some ["numpy"]) {[ "gpu" := ["cupy"] ]}).
Proof.
  assert ("dev" ≠ "gpu") as H1 by discriminate.
  assert ("dev" ≠ "staged") as H2 by discriminate.
  split_and!; [exact H1|exact H2|].
  exact (proj1 (other_groups_ignored (Some ["numpy"]) {[ "gpu" := ["cupy"] ]}
                  "dev" ["pytest"] H1 H2)).
Defined.

(** ** Listing lines *)

Module FreezeFacts.
Import StringFacts.

Lemma partition_unfold sep s :
  Py.partition sep s
  = if Py.startswith sep s then Some ("", Py.drop (String.length sep) s)
    else match s with
         | "" => None
         | String c r =>
             match Py.partition sep r with
             | Some (a, b) => Some (String c a, b)
             | None => None
             end
         end.
Proof. by destruct s. Qed.

Lemma startswith_spec p : ∀ s,
  Py.startswith p s = true → s = p +:+ Py.drop (String.length p) s.
Proof.
  induction p as [|a p IH]; intros s; [done|].
  destruct s as [|b s]; [done|]. simpl.
  destruct (Ascii.eqb_spec a b) as [->|]; [|done].
  intros Hp. push_append. f_equal. by apply IH.
Qed.

(** What [partition] returns, put together again, is the string. *)
Lemma partition_spec sep s : ∀ a b,
  Py.partition sep s = Some (a, b) → s = a +:+ sep +:+ b.
Proof.
  induction s as [|c s IH]; intros a b; rewrite partition_unfold.
  - destruct (Py.startswith sep "") eqn:Hp; [|done].
    intros [= <- <-]. by apply startswith_spec.
  - destruct (Py.startswith sep (String c s)) eqn:Hp.
    + intros [= <- <-]. by apply startswith_spec.
    + destruct (Py.partition sep s) as [[a' b']|] eqn:Hs; [|done].
      intros [= <- <-]. push_append. f_equal. by apply IH.
Qed.

Lemma startswith_cons_ne a p c s :
  Ascii.eqb c a = false → Py.startswith (String a p) (String c s) = false.
Proof. simpl. rewrite Ascii.eqb_sym. by intros ->. Qed.

(** The first [==] after a text without an equals sign is found. *)
Lemma partition_after raw rest :
  all_chars (other_than "=") raw = true →
  Py.startswith "==" rest = true →
  Py.partition "==" (raw +:+ rest) = Some (raw, Py.drop 2 rest).
Proof.
  intros Hraw Hrest. induction raw as [|c raw IH].
  - rewrite append_nil_l, partition_unfold. by rewrite Hrest.
  - simpl in Hraw. apply andb_true_iff in Hraw as [Hc Hraw].
    apply negb_true_iff in Hc.
    rewrite append_cons, partition_unfold, startswith_cons_ne by done.
    by rewrite IH.
Qed.

Lemma partition_entry raw version :
  all_chars (other_than "=") raw = true →
  Py.partition "==" (raw +:+ "==" +:+ version) = Some (raw, version).
Proof. intros Hraw. by rewrite partition_after. Qed.

Lemma startswith_char a raw r :
  head_is (fun c => Ascii.eqb c a) raw = false →
  head_is (fun c => Ascii.eqb c a) r = false →
  Py.startswith (String a "") (raw +:+ r) = false.
Proof.
  destruct raw as [|c raw]; push_append.
  - intros _. destruct r as [|c r]; [done|]. simpl. rewrite Ascii.eqb_sym.
    by intros ->.
  - simpl. rewrite Ascii.eqb_sym. by intros ->.
Qed.

Lemma parse_stripped raw version line :
  Py.strip line = raw +:+ "==" +:+ version →
  all_chars (other_than "=") raw = true →
  head_is is_skip_mark raw = false →
  parse_freeze_line line = Some (normalize_package_name raw, version).
Proof.
  intros Hline Hraw Hhead. unfold parse_freeze_line, Py.contains, Py.split1.
  rewrite Hline, partition_entry by done.
  assert (Py.truthy (raw +:+ "==" +:+ version) = true) as -> by by destruct raw.
  assert (head_is (fun c => Ascii.eqb c "#") raw = false
          ∧ head_is (fun c => Ascii.eqb c "-") raw = false) as [Hhash Hminus].
  { destruct raw as [|c raw]; [done|]. simpl in *. unfold is_skip_mark in Hhead.
    by apply orb_false_iff in Hhead. }
  assert (Py.startswith "-e" (raw +:+ "==" +:+ version) = false) as ->.
  { destruct raw as [|c raw]; [done|]. rewrite append_cons.
    by apply startswith_cons_ne. }
  by rewrite !startswith_char.
Qed.

(** A line that parses is, once stripped, a raw name, [==] and the
    version; the name returned is the raw name normalized. *)
Lemma parse_shape line name version :
  parse_freeze_line line = Some (name, version) →
  ∃ raw, Py.strip line = raw +:+ "==" +:+ version
         ∧ name = normalize_package_name raw.
Proof.
  unfold parse_freeze_line, Py.contains, Py.split1.
  destruct (_ || _ || _); [done|].
  destruct (Py.startswith "-e" _); [done|].
  destruct (Py.partition "==" (Py.strip line)) as [[raw v]|] eqn:Hp; [|done].
  intros [= <- <-]. exists raw. split; [|done]. by apply partition_spec.
Qed.

Lemma elem_of_set (d : Dict.t) k v x : x ∈ Dict.set d k v → x ∈ d ∨ x = (k, v).
Proof.
  induction d as [|[k0 v0] d IH]; simpl.
  - intros ->%list_elem_of_singleton. by right.
  - destruct (String.eqb_spec k0 k) as [->|_]; rewrite !elem_of_cons; naive_solver.
Qed.

Lemma elem_of_load_freeze lines : ∀ k v,
  (k, v) ∈ load_freeze lines →
  ∃ line, line ∈ lines ∧ parse_freeze_line line = Some (k, v).
Proof.
  induction lines as [|line lines IH] using rev_ind; intros k v.
  - by intros ?%elem_of_nil.
  - rewrite load_freeze_app. simpl.
    destruct (parse_freeze_line line) as [[k' v']|] eqn:Hline.
    + intros [Hin|[= -> ->]]%elem_of_set.
      * destruct (IH k v Hin) as (l & Hl & Hp). exists l. set_solver.
      * exists line. set_solver.
    + intros Hin. destruct (IH k v Hin) as (l & Hl & Hp). exists l. set_solver.
Qed.

End FreezeFacts.

(** X4. A line that, once stripped of surrounding whitespace, reads
    [raw==version], where [raw] holds no equals sign and does not start
    with the comment sign or a hyphen, parses to the normalized [raw] and
    the version as written.  The raw name may even be empty. *)
Theorem parse_freeze_line_of_entry (raw version line : string) :
  Py.strip line = raw +:+ "==" +:+ version →
  all_chars (other_than "=") raw = true →
  head_is is_skip_mark raw = false →
  parse_freeze_line line = Some (normalize_package_name raw, version).
Proof. apply FreezeFacts.parse_stripped. Qed.

Lemma parse_freeze_line_of_entry_witness :
  Py.strip ("  Foo_Bar==1.0rc1" +:+ String Py.LF "") = "Foo_Bar" +:+ "==" +:+ "1.0rc1"
  ∧ parse_freeze_line ("  Foo_Bar==1.0rc1" +:+ String Py.LF "")
    = Some ("foo-bar", "1.0rc1")
  ∧ parse_freeze_line "==2" = Some ("", "2").
Proof.
  assert (Py.strip ("  Foo_Bar==1.0rc1" +:+ String Py.LF "")
          = "Foo_Bar" +:+ "==" +:+ "1.0rc1") as Hline by reflexivity.
  split_and!; [exact Hline| |].
  - exact (parse_freeze_line_of_entry "Foo_Bar" "1.0rc1" _ Hline eq_refl eq_refl).
  - exact (parse_freeze_line_of_entry "" "2" "==2" eq_refl eq_refl eq_refl).
Defined.

(** X5. The installed mapping holds nothing but what the lines give: each
    of its items comes from a line of the listing whose stripped text is a
    raw name, [==] and the item's version, and the item's key is that raw
    name normalized.  So every key of the mapping is in normal form. *)
Theorem load_freeze_items (lines : list string) (k v : string) :
  (k, v) ∈ load_freeze lines →
  (∃ line raw,
     line ∈ lines
     ∧ Py.strip line = raw +:+ "==" +:+ v
     ∧ k = normalize_package_name raw)
  ∧ in_normal_form k.
Proof.
  intros (line & Hline & Hparse)%FreezeFacts.elem_of_load_freeze.
  destruct (FreezeFacts.parse_shape line k v Hparse) as (raw & Hs & ->).
  split; [by exists line, raw|]. apply NormalForm.normalize_idem.
Qed.

Lemma load_freeze_items_witness :
  ("foo-bar", "2.0") ∈ load_freeze ["Foo_Bar==1.0"; "other==3"; "foo-bar==2.0"]
  ∧ in_normal_form "foo-bar".
Proof.
  assert (("foo-bar", "2.0") ∈ load_freeze ["Foo_Bar==1.0"; "other==3"; "foo-bar==2.0"])
    as Hin by by_computation.
  split; [exact Hin|].
  exact (proj2 (load_freeze_items _ _ _ Hin)).
Defined.

(** ** The answer of [pip show] *)

Module ShowFacts.
Import StringFacts.

Lemma split_no_sep c x : all_chars (other_than c) x = true → Py.split c x = [x].
Proof.
  induction x as [|a x IH]; [done|]. simpl. unfold other_than at 1.
  intros [Ha Hx]%andb_true_iff. apply negb_true_iff in Ha. by rewrite Ha, IH.
Qed.

Lemma split_app c x r :
  all_chars (other_than c) x = true →
  Py.split c (x +:+ String c r) = x :: Py.split c r.
Proof.
  induction x as [|a x IH].
  - intros _. rewrite append_nil_l. simpl. by rewrite Ascii.eqb_refl.
  - simpl. unfold other_than at 1. intros [Ha Hx]%andb_true_iff.
    apply negb_true_iff in Ha. by rewrite Ha, IH.
Qed.

Lemma join_cons sep x y (ls : list string) :
  Py.join sep (x :: y :: ls) = x +:+ sep +:+ Py.join sep (y :: ls).
Proof. reflexivity. Qed.

(** Splitting at the separator undoes joining with it. *)
Lemma split_join c (ls : list string) :
  ls ≠ [] → Forall (fun x => all_chars (other_than c) x = true) ls →
  Py.split c (Py.join (String c "") ls) = ls.
Proof.
  induction ls as [|x [|y ls] IH]; [done| |]; intros _ Hls.
  - apply Forall_cons in Hls as [Hx _]. by apply split_no_sep.
  - apply Forall_cons in Hls as [Hx Hls]. rewrite join_cons.
    change (x +:+ String c "" +:+ Py.join (String c "") (y :: ls))
      with (x +:+ String c (Py.join (String c "") (y :: ls))).
    rewrite split_app by done. f_equal. by apply IH.
Qed.

Lemma split_deps (deps : list string) :
  Forall (fun d => all_chars (other_than ",") d = true) deps →
  Py.split "," (Py.join ", " deps)
  = match deps with [] => [""] | d :: ds => d :: (String " " <$> ds) end.
Proof.
  induction deps as [|x [|y ls] IH]; [done| |]; intros Hds.
  - apply Forall_cons in Hds as [Hx _]. by apply split_no_sep.
  - apply Forall_cons in Hds as [Hx Hds]. rewrite join_cons.
    change (x +:+ ", " +:+ Py.join ", " (y :: ls))
      with (x +:+ String "," (String " " (Py.join ", " (y :: ls)))).
    rewrite split_app by done. f_equal.
    change (Py.split "," (String " " (Py.join ", " (y :: ls))))
      with (match Py.split "," (Py.join ", " (y :: ls)) with
            | h :: t => String " " h :: t
            | [] => [String " " ""]
            end).
    by rewrite IH.
Qed.

Lemma head_is_app p a b : a ≠ "" → head_is p (a +:+ b) = head_is p a.
Proof. by destruct a. Qed.

Lemma last_is_app p a b : b ≠ "" → last_is p (a +:+ b) = last_is p b.
Proof.
  intros Hb. induction a as [|c a IH]; [done|]. rewrite append_cons.
  destruct (a +:+ b) as [|c' r] eqn:Hab.
  - destruct a; [by rewrite append_nil_l in Hab|done].
  - by rewrite <- IH.
Qed.

Lemma rstrip_id s : last_is Py.isspace s = false → Py.rstrip s = s.
Proof.
  induction s as [|c [|c' r] IH]; [done|..].
  - simpl. by intros ->.
  - intros Hlast. change (Py.rstrip (String c (String c' r)))
      with (let r' := Py.rstrip (String c' r) in
            if Py.isspace c && negb (Py.truthy r') then "" else String c r').
    rewrite IH by done. simpl. by rewrite andb_false_r.
Qed.

Lemma lstrip_id s : head_is Py.isspace s = false → Py.lstrip s = s.
Proof. destruct s as [|c r]; [done|]. simpl. by intros ->. Qed.

Lemma trimmed_parts s :
  is_trimmed s = true
  ↔ s ≠ "" ∧ head_is Py.isspace s = false ∧ last_is Py.isspace s = false.
Proof.
  unfold is_trimmed. rewrite !andb_true_iff, !negb_true_iff.
  destruct s; naive_solver.
Qed.

Lemma strip_trimmed s : is_trimmed s = true → Py.strip s = s.
Proof.
  intros (_ & Hhead & Hlast)%trimmed_parts. unfold Py.strip.
  by rewrite rstrip_id, lstrip_id.
Qed.

(** One blank before a trimmed text is stripped away. *)
Lemma strip_blank_trimmed s : is_trimmed s = true → Py.strip (String " " s) = s.
Proof.
  intros (Hne & Hhead & Hlast)%trimmed_parts. unfold Py.strip.
  change (Py.rstrip (String " " s))
    with (if Py.isspace " " && negb (Py.truthy (Py.rstrip s)) then ""
          else String " " (Py.rstrip s)).
  rewrite rstrip_id by done. destruct s as [|c r]; [done|].
  change (Py.lstrip (String c r) = String c r). by apply lstrip_id.
Qed.

Lemma join_trimmed (deps : list string) :
  deps ≠ [] → Forall (fun d => is_trimmed d = true) deps →
  is_trimmed (Py.join ", " deps) = true.
Proof.
  induction deps as [|x [|y ls] IH]; [done| |]; intros _ Hds.
  - by apply Forall_cons in Hds as [Hx _].
  - apply Forall_cons in Hds as [Hx Hds]. rewrite join_cons.
    specialize (IH ltac:(done) Hds).
    apply trimmed_parts in Hx as (Hx & Hxh & _).
    apply trimmed_parts in IH as (HJ & _ & HJl).
    apply trimmed_parts. split_and!.
    + by destruct x.
    + by rewrite head_is_app.
    + rewrite last_is_app, last_is_app; [done..|]. by destruct (Py.join ", " (y :: ls)).
Qed.

Lemma strip_all_space ws : all_chars Py.isspace ws = true → Py.strip ws = "".
Proof.
  intros Hws. unfold Py.strip. assert (Py.rstrip ws = "") as ->; [|done].
  induction ws as [|c ws IH]; [done|]. simpl in *.
  apply andb_true_iff in Hws as [-> Hws]. by rewrite IH.
Qed.

(** Lines before the field are passed over. *)
Lemma required_by_skip before : ∀ rest,
  Forall (fun l => Py.startswith "Required-by:" l = false) before →
  required_by_of_lines (before ++ rest) = required_by_of_lines rest.
Proof.
  induction before as [|l before IH]; intros rest Hb; [done|].
  apply Forall_cons in Hb as [Hl Hb]. rewrite <- app_comm_cons.
  cbn [required_by_of_lines]. rewrite Hl. by apply IH.
Qed.

Lemma required_by_field value after :
  required_by_of_lines (("Required-by:" +:+ value) :: after)
  = if Py.truthy (Py.strip value)
    then Py.strip <$> Py.split "," (Py.strip value) else [].
Proof. reflexivity. Qed.

Lemma names_stripped (deps : list string) :
  Forall (fun d => is_dependent_name d = true) deps →
  Py.strip <$> match deps with [] => [""] | d :: ds => d :: (String " " <$> ds) end
  = match deps with [] => [""] | _ => deps end.
Proof.
  destruct deps as [|d ds]; [done|]. intros Hds.
  apply Forall_cons in Hds as [Hd Hds]. unfold is_dependent_name in Hd.
  apply andb_true_iff in Hd as [Hd _]. rewrite fmap_cons, strip_trimmed by done.
  f_equal. rewrite <- list_fmap_compose.
  induction Hds as [|x ds Hx _ IH]; [done|]. rewrite fmap_cons, IH. f_equal.
  unfold is_dependent_name in Hx. apply andb_true_iff in Hx as [Hx _].
  by apply strip_blank_trimmed.
Qed.

End ShowFacts.

Module LineFacts.
Import StringFacts.

Lemma all_chars_app p a b : all_chars p (a +:+ b) = all_chars p a && all_chars p b.
Proof.
  induction a as [|c a IH]; [done|]. rewrite append_cons. simpl.
  by rewrite IH, andb_assoc.
Qed.

Lemma all_chars_join p sep (ls : list string) :
  all_chars p sep = true → Forall (fun x => all_chars p x = true) ls →
  all_chars p (Py.join sep ls) = true.
Proof.
  intros Hsep. induction ls as [|x [|y ls] IH]; [done| |]; intros Hls.
  - by apply Forall_cons in Hls as [Hx _].
  - apply Forall_cons in Hls as [Hx Hls]. rewrite ShowFacts.join_cons.
    by rewrite !all_chars_app, Hx, Hsep, IH.
Qed.

End LineFacts.

Section Show.

Context {World : Type}.
Variable pip_show : string → World → run_result * World.

(** A successful [pip show] is read line by line. *)
Lemma get_required_by_lines pkg w (lines : list string) :
  (pip_show pkg w).1 = Completed 0 (Py.join (String Py.LF "") lines) →
  lines ≠ [] → Forall (fun l => is_line l = true) lines →
  get_required_by pip_show pkg w = (required_by_of_lines lines, (pip_show pkg w).2).
Proof.
  unfold get_required_by. destruct (pip_show pkg w) as [r w']. simpl.
  intros -> Hne Hlines.
  rewrite bool_decide_eq_false_2 by (intros H; by apply H).
  rewrite ShowFacts.split_join; [done|done|exact Hlines].
Qed.

(** Whatever the answer, one query is one call of [pip show]. *)
Lemma get_required_by_world pkg w :
  (get_required_by pip_show pkg w).2 = (pip_show pkg w).2.
Proof.
  unfold get_required_by. destruct (pip_show pkg w) as [[rc out| |] w']; [|done..].
  simpl. by case_bool_decide.
Qed.

End Show.

(** X6. When [pip show] succeeds and its output has a [Required-by:] line
    that lists one or more names separated by a comma and a blank, the
    query returns exactly those names, in that order.  It is the first such
    line that counts: the lines before it do not start with [Required-by:],
    the lines after it are not read. *)
Theorem get_required_by_reads_field {World : Type}
    (pip_show : string → World → run_result * World)
    (pkg : string) (w : World) (before after deps : list string) :
  (pip_show pkg w).1
  = Completed 0 (Py.join (String Py.LF "") (before ++ required_by_line deps :: after)) →
  Forall (fun l => is_line l = true ∧ Py.startswith "Required-by:" l = false) before →
  Forall (fun l => is_line l = true) after →
  deps ≠ [] →
  Forall (fun d => is_dependent_name d = true ∧ is_line d = true) deps →
  get_required_by pip_show pkg w = (deps, (pip_show pkg w).2).
Proof.
  intros Hout Hbefore Hafter Hne Hdeps.
  assert (Forall (fun d => is_dependent_name d = true) deps) as Hnames
    by (eapply Forall_impl; [done|]; by intros d [? _]).
  assert (Forall (fun d => is_trimmed d = true) deps) as Htrim.
  { eapply Forall_impl; [exact Hnames|]. unfold is_dependent_name.
    by intros d [? _]%andb_true_iff. }
  assert (Forall (fun d => all_chars (other_than ",") d = true) deps) as Hcomma.
  { eapply Forall_impl; [exact Hnames|]. unfold is_dependent_name.
    by intros d [_ ?]%andb_true_iff. }
  rewrite (get_required_by_lines pip_show pkg w _ Hout).
  - f_equal. rewrite ShowFacts.required_by_skip
      by (eapply Forall_impl; [exact Hbefore|]; by intros l [_ ?]).
    change (required_by_line deps)
      with ("Required-by:" +:+ String " " (Py.join ", " deps)).
    pose proof (ShowFacts.join_trimmed deps Hne Htrim) as HJ.
    rewrite ShowFacts.required_by_field, ShowFacts.strip_blank_trimmed by done.
    apply ShowFacts.trimmed_parts in HJ as (HJ & _).
    destruct (Py.join ", " deps) as [|c J] eqn:Hjoin; [done|].
    rewrite <- Hjoin, ShowFacts.split_deps, ShowFacts.names_stripped by done.
    rewrite Hjoin. by destruct deps.
  - by destruct before.
  - apply Forall_app. split; [eapply Forall_impl; [exact Hbefore|]; by intros l [? _]|].
    apply Forall_cons. split; [|done]. unfold is_line, required_by_line.
    rewrite LineFacts.all_chars_app. apply andb_true_iff. split; [done|].
    apply LineFacts.all_chars_join; [done|].
    eapply Forall_impl; [exact Hdeps|]. by intros d [_ ?].
Qed.

Lemma get_required_by_reads_field_witness :
  get_required_by
    (printing_pip_show
       (["Name: six"; "Version: 1.16"]
        ++ required_by_line ["pandas"; "python-dateutil"] :: ["Required-by: late"]))
    "six" 0
  = (["pandas"; "python-dateutil"], 1).
Proof.
  apply (get_required_by_reads_field
           (printing_pip_show
              (["Name: six"; "Version: 1.16"]
               ++ required_by_line ["pandas"; "python-dateutil"]
                  :: ["Required-by: late"]))
           "six" 0 ["Name: six"; "Version: 1.16"] ["Required-by: late"]
           ["pandas"; "python-dateutil"]).
  - reflexivity.
  - repeat constructor.
  - repeat constructor.
  - discriminate.
  - repeat constructor.
Defined.

(** X7. When [pip show] succeeds and the first [Required-by:] line holds
    nothing but blanks after the colon, the query returns no dependents,
    even if a later line names some. *)
Theorem get_required_by_empty_field {World : Type}
    (pip_show : string → World → run_result * World)
    (pkg : string) (w : World) (before after : list string) (blank : string) :
  (pip_show pkg w).1
  = Completed 0
      (Py.join (String Py.LF "") (before ++ ("Required-by:" +:+ blank) :: after)) →
  Forall (fun l => is_line l = true ∧ Py.startswith "Required-by:" l = false) before →
  Forall (fun l => is_line l = true) after →
  all_chars Py.isspace blank = true → is_line blank = true →
  get_required_by pip_show pkg w = ([], (pip_show pkg w).2).
Proof.
  intros Hout Hbefore Hafter Hblank Hline.
  rewrite (get_required_by_lines pip_show pkg w _ Hout).
  - f_equal. rewrite ShowFacts.required_by_skip
      by (eapply Forall_impl; [exact Hbefore|]; by intros l [_ ?]).
    by rewrite ShowFacts.required_by_field, ShowFacts.strip_all_space.
  - by destruct before.
  - apply Forall_app. split; [eapply Forall_impl; [exact Hbefore|]; by intros l [? _]|].
    apply Forall_cons. split; [|done]. unfold is_line.
    rewrite LineFacts.all_chars_app. apply andb_true_iff. by split.
Qed.

Lemma get_required_by_empty_field_witness :
  get_required_by
    (printing_pip_show
       (["Name: x"] ++ ("Required-by:" +:+ "  ") :: ["Required-by: pandas"]))
    "x" 0
  = ([], 1).
Proof.
  apply (get_required_by_empty_field
           (printing_pip_show
              (["Name: x"] ++ ("Required-by:" +:+ "  ") :: ["Required-by: pandas"]))
           "x" 0 ["Name: x"] ["Required-by: pandas"] "  ").
  - reflexivity.
  - repeat constructor.
  - repeat constructor.
  - reflexivity.
  - reflexivity.
Defined.

(** ** The loop of the classifier, further *)

Lemma picked_app b ts1 ts2 : picked b (ts1 ++ ts2) = picked b ts1 ++ picked b ts2.
Proof. unfold picked. by rewrite filter_app, fmap_app. Qed.

(** Every tagged item is picked by one bucket. *)
Lemma picked_lengths ts :
  length (picked Core ts) + length (picked Gpu ts) + length (picked Staged ts)
  + length (picked StagedNew ts) + length (picked Transitive ts)
  = length ts.
Proof.
  induction ts as [|[[k v] b] ts IH]; [done|].
  change ((k, v, b) :: ts) with ([(k, v, b)] ++ ts). rewrite !picked_app, !length_app.
  rewrite <- IH. destruct b; simpl; lia.
Qed.

Lemma priority_rule_staged_new in_core in_gpu in_staged check dependents :
  priority_rule in_core in_gpu in_staged check dependents = StagedNew
  ↔ in_core || in_gpu || in_staged = false ∧ check && dependents = false.
Proof.
  unfold priority_rule.
  destruct in_core, in_gpu, in_staged, check, dependents; naive_solver.
Qed.

Lemma load_freeze_keys_normal lines k :
  k ∈ Dict.keys (load_freeze lines) → in_normal_form k.
Proof.
  intros [v Hin]%DictFacts.elem_of_keys.
  apply FreezeFacts.elem_of_load_freeze in Hin as (line & _ & Hparse).
  destruct (FreezeFacts.parse_shape line k v Hparse) as (raw & _ & ->).
  apply NormalForm.normalize_idem.
Qed.

Section Loop.

Context {World : Type}.
Variable pip_show : string → World → run_result * World.
Variable declared : declared_sets.
Variable check_transitive : bool.

Abbreviation pick' := (classify pip_show declared check_transitive).
Abbreviation tags' := (tagged pip_show declared check_transitive).
Abbreviation after' := (world_after pip_show declared check_transitive).
Abbreviation run' installed w :=
  (categorize_packages pip_show installed declared check_transitive w).

(** The loop body calls [pip show] once for a package it asks about, and
    not at all for another. *)
Lemma classify_world pkg w :
  (pick' pkg w).2
  = if is_queried declared check_transitive pkg then (pip_show pkg w).2 else w.
Proof.
  unfold classify, is_queried, is_declared.
  repeat case_bool_decide; simpl; try by rewrite ?andb_false_r.
  destruct check_transitive; [|done]. simpl.
  rewrite <- get_required_by_world. by destruct (get_required_by pip_show pkg w).1.
Qed.

Lemma world_after_queries pkgs : ∀ w,
  after' pkgs w
  = foldl (fun w pkg => (pip_show pkg w).2) w
      (filter (fun pkg => is_queried declared check_transitive pkg = true) pkgs).
Proof.
  induction pkgs as [|pkg pkgs IH]; intros w; [done|].
  simpl world_after. rewrite IH, classify_world, filter_cons.
  destruct (is_queried declared check_transitive pkg); by simplify_eq/=.
Qed.

Lemma world_after_app pkgs1 pkgs2 w :
  after' (pkgs1 ++ pkgs2) w = after' pkgs2 (after' pkgs1 w).
Proof. revert w. induction pkgs1 as [|pkg pkgs1 IH]; intros w; [done|]. apply IH. Qed.

Lemma tagged_append l1 l2 w :
  tags' (l1 ++ l2) w = tags' l1 w ++ tags' l2 (after' (Dict.keys l1) w).
Proof.
  revert w. induction l1 as [|[pkg version] rest IH]; intros w; [done|].
  simpl. by rewrite IH.
Qed.

End Loop.

(** X8. With the transitive check enabled the classifier calls [pip show]
    once for each installed package whose normalized name is in no
    declared set, in the order of the listing, and for no other package:
    the world it leaves is the one those calls leave.  With the check
    disabled it calls nothing, the world is untouched and the buckets do
    not depend on what [pip show] would answer. *)
Theorem categorize_packages_queries {World : Type}
    (pip_show : string → World → run_result * World)
    (installed : Dict.t) (declared : declared_sets) (check_transitive : bool)
    (w : World) :
  (categorize_packages pip_show installed declared check_transitive w).2
  = foldl (fun w pkg => (pip_show pkg w).2) w
      (filter (fun pkg => is_queried declared check_transitive pkg = true)
         (Dict.keys installed))
  ∧ (categorize_packages pip_show installed declared false w).2 = w
  ∧ (∀ pip_show' : string → World → run_result * World,
       categorize_packages pip_show installed declared false w
       = categorize_packages pip_show' installed declared false w).
Proof.
  split_and!.
  - by rewrite categorize_world, world_after_queries.
  - rewrite categorize_world, world_after_queries.
    by induction (Dict.keys installed) as [|k ks IH].
  - intros pip_show'. unfold categorize_packages. generalize empty_categories.
    revert w. induction installed as [|[pkg version] rest IH]; intros w c; [done|].
    cbn [foldl]. rewrite !categorize_item_classify.
    assert (classify pip_show declared false pkg w
            = classify pip_show' declared false pkg w) as ->; [|apply IH].
    unfold classify. by repeat case_bool_decide.
Qed.

(** X9. Classifying a listing in two parts gives the same result as
    classifying it in one go: each bucket of the whole is the bucket of the
    first part followed by the bucket of the second part, the second part
    being classified in the world that the first part leaves. *)
Theorem categorize_packages_app {World : Type}
    (pip_show : string → World → run_result * World)
    (part1 part2 : Dict.t) (declared : declared_sets) (check_transitive : bool)
    (w : World) :
  Dict.wf (part1 ++ part2) →
  let first := categorize_packages pip_show part1 declared check_transitive w in
  let second := categorize_packages pip_show part2 declared check_transitive first.2 in
  let whole := categorize_packages pip_show (part1 ++ part2) declared check_transitive w in
  (∀ b, bucket_of whole.1 b = bucket_of first.1 b ++ bucket_of second.1 b)
  ∧ whole.2 = second.2.
Proof.
  intros Hwf first second whole. subst first second whole.
  assert (Dict.wf part1 ∧ Dict.wf part2) as [Hwf1 Hwf2].
  { unfold Dict.wf in *. rewrite DictFacts.keys_app in Hwf.
    by apply NoDup_app in Hwf as (? & _ & ?). }
  split.
  - intros b. rewrite !categorize_buckets by done.
    by rewrite tagged_append, picked_app, categorize_world.
  - by rewrite !categorize_world, DictFacts.keys_app, world_after_app.
Qed.

Lemma categorize_packages_app_witness :
  Dict.wf ([("x", "1.0"); ("numpy", "2.0")] ++ [("six", "1.16"); ("y", "3.0")])
  ∧ cat_transitive
      (categorize_packages alternating_pip_show example_installed example_declared
         true 0).1
    = cat_transitive
        (categorize_packages alternating_pip_show [("x", "1.0"); ("numpy", "2.0")]
           example_declared true 0).1
      ++ cat_transitive
           (categorize_packages alternating_pip_show [("six", "1.16"); ("y", "3.0")]
              example_declared true 1).1.
Proof.
  assert (Dict.wf ([("x", "1.0"); ("numpy", "2.0")] ++ [("six", "1.16"); ("y", "3.0")]))
    as Hwf by wf_by_computation.
  split; [exact Hwf|].
  exact (proj1 (categorize_packages_app alternating_pip_show
                  [("x", "1.0"); ("numpy", "2.0")] [("six", "1.16"); ("y", "3.0")]
                  example_declared true 0 Hwf) Transitive).
Defined.

(** X10. The five buckets together hold as many packages as are
    installed, so the report ends with the line [TOTAL: n packages
    installed] where [n] is the number of installed packages. *)
Theorem report_total {World : Type}
    (pip_show : string → World → run_result * World)
    (installed : Dict.t) (declared : declared_sets) (check_transitive : bool)
    (w : World) (cluster version date : string) :
  Dict.wf installed →
  let cats := (categorize_packages pip_show installed declared check_transitive w).1 in
  Dict.len (cat_core cats) + Dict.len (cat_gpu cats) + Dict.len (cat_staged cats)
  + Dict.len (cat_staged_new cats) + Dict.len (cat_transitive cats)
  = Dict.len installed
  ∧ ∃ body,
      generate_report cats declared cluster version date
      = Py.join (String Py.LF "") (body ++ [total_line (Dict.len installed)]).
Proof.
  intros Hwf cats.
  assert (Dict.len (cat_core cats) + Dict.len (cat_gpu cats)
          + Dict.len (cat_staged cats) + Dict.len (cat_staged_new cats)
          + Dict.len (cat_transitive cats) = Dict.len installed) as Hsum.
  { subst cats. unfold Dict.len.
    change (cat_core ?c) with (bucket_of c Core).
    change (cat_gpu ?c) with (bucket_of c Gpu).
    change (cat_staged ?c) with (bucket_of c Staged).
    change (cat_staged_new ?c) with (bucket_of c StagedNew).
    change (cat_transitive ?c) with (bucket_of c Transitive).
    rewrite !categorize_buckets, picked_lengths by done.
    rewrite <- (tagged_items pip_show declared check_transitive installed w) at 2.
    by rewrite length_fmap. }
  split; [done|].
  unfold generate_report, total_line. rewrite Hsum. eexists. f_equal.
  rewrite !app_assoc. reflexivity.
Qed.

Lemma report_total_witness :
  Dict.wf example_installed
  ∧ ∃ body,
      generate_report
        (categorize_packages alternating_pip_show example_installed example_declared
           true 0).1 example_declared "gemini" "3.19" "2026-01-01 00:00"
      = Py.join (String Py.LF "") (body ++ ["TOTAL: 4 packages installed"]).
Proof.
  assert (Dict.wf example_installed) as Hwf by wf_by_computation.
  split; [exact Hwf|].
  exact (proj2 (report_total alternating_pip_show example_installed example_declared
                  true 0 "gemini" "3.19" "2026-01-01 00:00" Hwf)).
Defined.

(** The staged_new bucket stays empty exactly when every package is
    declared under its own key or found to have a dependent. *)
Lemma staged_new_empty_iff {World : Type}
    (pip_show : string → World → run_result * World)
    (installed : Dict.t) (declared : declared_sets) (check : bool) (w : World) :
  Dict.wf installed →
  (∀ pkg, pkg ∈ Dict.keys installed → in_normal_form pkg) →
  cat_staged_new (categorize_packages pip_show installed declared check w).1 = []
  ↔ ∀ pkg, pkg ∈ Dict.keys installed →
      is_declared declared pkg = true
      ∨ (check = true
         ∧ has_dependents pip_show pkg
             (world_at pip_show declared check installed w pkg) = true).
Proof.
  intros Hwf Hnormal.
  assert (Hkey : ∀ pkg,
    pkg ∈ Dict.keys
            (bucket_of (categorize_packages pip_show installed declared check w).1
               StagedNew)
    ↔ pkg ∈ Dict.keys installed
      ∧ ¬ (is_declared declared pkg = true
           ∨ (check = true
              ∧ has_dependents pip_show pkg
                  (world_at pip_show declared check installed w pkg) = true))).
  { intros pkg. rewrite elem_of_bucket_keys, classify_priority by done.
    split; intros [Hin Hrule]; (split; [done|]).
    - symmetry in Hrule. apply priority_rule_staged_new in Hrule as [Hd Hq].
      rewrite (Hnormal _ Hin) in Hd. unfold is_declared.
      rewrite Hd. intros [?|[-> Hdep]]; [done|]. by rewrite Hdep in Hq.
    - symmetry. apply priority_rule_staged_new.
      rewrite (Hnormal _ Hin). fold (is_declared declared pkg).
      destruct (is_declared declared pkg); [naive_solver|]. split; [done|].
      destruct check; [|done].
      destruct (has_dependents pip_show pkg _); naive_solver. }
  simpl bucket_of in Hkey.
  destruct (cat_staged_new (categorize_packages pip_show installed declared check w).1)
    as [|[k v] rest] eqn:Hnew.
  - split; [|done]. intros _ pkg Hin.
    destruct (decide (is_declared declared pkg = true
                      ∨ (check = true
                         ∧ has_dependents pip_show pkg
                             (world_at pip_show declared check installed w pkg)
                           = true))) as [|Hno]; [done|].
    pose proof (proj2 (Hkey pkg) (conj Hin Hno)) as Hpkg.
    by apply elem_of_nil in Hpkg.
  - split; [done|]. intros Hall.
    destruct (proj1 (Hkey k)) as [Hin Hno]; [apply list_elem_of_here|].
    destruct Hno. by apply Hall.
Qed.

(** X11. A run exits with status 0 exactly when the listing is read, the
    manifest is loaded, the snapshot write (if one is asked for) does not
    raise, and every package of the listing is either declared in the
    manifest, under its own key, or (the transitive check being enabled)
    reported to have a dependent by the query made when the loop reaches
    it.  With the check skipped the last condition is that every listed
    package is declared. *)
Theorem main_exit_zero_iff {World : Type}
    (pip_show : string → World → run_result * World)
    (now_strftime : World → string * World)
    (read_lines : string → World → option (list string) * World)
    (load_pyproject : string → World → option manifest * World)
    (write_text : string → string → World → bool * World)
    (args : arguments) (w : World) :
  let out :=
    (main pip_show now_strftime read_lines load_pyproject write_text args w).1 in
  let check := negb (arg_skip_transitive_check args) in
  (out_exit out = 0%Z
   ↔ ∃ lines w1 pyproject w2,
       read_lines (arg_freeze args) w = (Some lines, w1)
       ∧ load_pyproject (arg_pyproject args) w1 = (Some pyproject, w2)
       ∧ snapshot_write pip_show now_strftime write_text args lines pyproject w2
         ≠ Some false
       ∧ ∀ pkg, pkg ∈ Dict.keys (load_freeze lines) →
           is_declared (get_declared_packages pyproject) pkg = true
           ∨ (check = true
              ∧ has_dependents pip_show pkg
                  (world_at pip_show (get_declared_packages pyproject) check
                     (load_freeze lines) w2 pkg) = true))
  ∧ (arg_skip_transitive_check args = true →
     (out_exit out = 0%Z
      ↔ ∃ lines w1 pyproject w2,
          read_lines (arg_freeze args) w = (Some lines, w1)
          ∧ load_pyproject (arg_pyproject args) w1 = (Some pyproject, w2)
          ∧ snapshot_write pip_show now_strftime write_text args lines pyproject w2
            ≠ Some false
          ∧ ∀ pkg, pkg ∈ Dict.keys (load_freeze lines) →
              is_declared (get_declared_packages pyproject) pkg = true)).
Proof.
  intros out check.
  assert (Hmain :
    out_exit out = 0%Z
    ↔ ∃ lines w1 pyproject w2,
        read_lines (arg_freeze args) w = (Some lines, w1)
        ∧ load_pyproject (arg_pyproject args) w1 = (Some pyproject, w2)
        ∧ snapshot_write pip_show now_strftime write_text args lines pyproject w2
          ≠ Some false
        ∧ ∀ pkg, pkg ∈ Dict.keys (load_freeze lines) →
            is_declared (get_declared_packages pyproject) pkg = true
            ∨ (check = true
               ∧ has_dependents pip_show pkg
                   (world_at pip_show (get_declared_packages pyproject) check
                      (load_freeze lines) w2 pkg) = true)).
  { subst out.
    destruct (read_lines (arg_freeze args) w) as [[lines|] w1] eqn:Hread.
    - destruct (load_pyproject (arg_pyproject args) w1) as [[pyproject|] w2] eqn:Hload.
      + destruct (main_run pip_show now_strftime read_lines load_pyproject write_text
                    args w lines w1 pyproject w2 Hread Hload) as [_ Hexit].
        rewrite Hexit. fold check.
        pose proof (staged_new_empty_iff pip_show (load_freeze lines)
                      (get_declared_packages pyproject) check w2
                      (load_freeze_wf lines) (load_freeze_keys_normal lines)) as Hnew.
        split.
        * intros Hzero. exists lines, w1, pyproject, w2.
          case_bool_decide; [done|]. split_and!; [done..|].
          apply Hnew. by destruct (cat_staged_new _).
        * intros (lines' & w1' & pyproject' & w2' & [= <- <-] & Hl & Hw & Hall).
          rewrite Hload in Hl. injection Hl as <- <-.
          rewrite bool_decide_eq_false_2 by done.
          by rewrite (proj2 Hnew Hall).
      + rewrite (main_load_fails pip_show now_strftime read_lines load_pyproject
                   write_text args w lines w1 Hread) by by rewrite Hload.
        split; [done|]. intros (? & ? & ? & ? & [= <- <-] & Hl & _).
        by rewrite Hload in Hl.
    - rewrite (main_read_fails pip_show now_strftime read_lines load_pyproject
                 write_text args w) by by rewrite Hread.
      split; [done|]. by intros (? & ? & ? & ? & ? & _). }
  split; [exact Hmain|].
  intros Hskip. rewrite Hmain. subst check. rewrite Hskip. simpl.
  split; intros (lines & w1 & pyproject & w2 & Hr & Hl & Hw & Hall);
    exists lines, w1, pyproject, w2; (split_and!; [done..|]); naive_solver.
Qed.

Lemma main_exit_zero_iff_witness :
  arg_skip_transitive_check (example_arguments "core-x.toml" (Some "snap.toml") true)
  = true
  ∧ out_exit
      (main failing_pip_show example_clock example_read_lines example_load_pyproject
         example_write_text (example_arguments "core-x.toml" (Some "snap.toml") true)
         0).1
    = 0%Z.
Proof.
  split; [reflexivity|].
  apply (proj2 (main_exit_zero_iff failing_pip_show example_clock example_read_lines
                  example_load_pyproject example_write_text
                  (example_arguments "core-x.toml" (Some "snap.toml") true) 0)
           eq_refl).
  exists ["x==1.0"], 0, core_x_manifest, 0.
  split_and!; [reflexivity|reflexivity|by vm_compute|].
  intros pkg Hin. vm_compute in Hin.
  apply list_elem_of_singleton in Hin as ->. by vm_compute.
Defined.

(** ** Sorted output *)

Module OrderFacts.

Lemma lt_irrefl (a : string) : ¬ String_as_OT.lt a a.
Proof. intros Hlt. by apply String_as_OT.lt_not_eq in Hlt. Qed.

Lemma compare_gt_lt (a b : string) : String.compare b a = Gt ↔ String_as_OT.lt a b.
Proof.
  rewrite <- String_as_OT.cmp_lt. unfold String_as_OT.cmp.
  rewrite (String.compare_antisym a b). by destruct (String.compare b a).
Qed.

Lemma leb_ltb (a b : string) : String.ltb b a = negb (String.leb a b).
Proof.
  unfold String.ltb, String.leb. rewrite (String.compare_antisym a b).
  by destruct (String.compare b a).
Qed.

(** Tuple order spelled out: the names decide, and the versions when the
    names are equal. *)
Lemma item_le_iff (a b : string * string) :
  Dict.item_le a b
  ↔ String_as_OT.lt a.1 b.1
    ∨ (a.1 = b.1 ∧ (String_as_OT.lt a.2 b.2 ∨ a.2 = b.2)).
Proof.
  unfold Dict.item_le, Dict.item_lt. rewrite <- string_leb_iff, leb_ltb.
  destruct (String.compare b.1 a.1) eqn:Hcmp.
  - apply String_as_OT.cmp_eq in Hcmp. rewrite negb_false_iff. split.
    + intros Hle. right. by split.
    + intros [Hlt|[_ Hle]]; [|done]. rewrite Hcmp in Hlt. by apply lt_irrefl in Hlt.
  - apply String_as_OT.cmp_lt in Hcmp. split; [done|].
    intros [Hlt|[Heq _]].
    + destruct (lt_irrefl a.1). by eapply String_as_OT.lt_trans.
    + rewrite Heq in Hcmp. by apply lt_irrefl in Hcmp.
  - apply compare_gt_lt in Hcmp. split; [by left|done].
Qed.

#[local] Instance item_le_trans : RelationClasses.Transitive Dict.item_le.
Proof.
  intros a b c. rewrite !item_le_iff.
  intros [H1|[E1 H1]] [H2|[E2 H2]].
  - left. by eapply String_as_OT.lt_trans.
  - left. by rewrite <- E2.
  - left. by rewrite E1.
  - right. split; [congruence|].
    destruct H1 as [H1| ->], H2 as [H2| <-]; eauto using String_as_OT.lt_trans.
Qed.

#[local] Instance item_le_antisym : AntiSymm (=) Dict.item_le.
Proof.
  intros [a1 a2] [b1 b2]. rewrite !item_le_iff. simpl.
  intros [H1|[E1 H1]] [H2|[E2 H2]].
  - destruct (lt_irrefl a1). by eapply String_as_OT.lt_trans.
  - rewrite E2 in H1. by apply lt_irrefl in H1.
  - rewrite E1 in H2. by apply lt_irrefl in H2.
  - subst b1. f_equal. destruct H1 as [H1|H1]; [|done]. destruct H2 as [H2|H2]; [|done].
    destruct (lt_irrefl a2). by eapply String_as_OT.lt_trans.
Qed.

(** The sorted items do not depend on the order of insertion. *)
Lemma sorted_items_perm (d1 d2 : Dict.t) :
  d1 ≡ₚ d2 → Dict.sorted_items d1 = Dict.sorted_items d2.
Proof.
  intros Hperm. apply (Sorted_unique Dict.item_le).
  - apply Sorted_merge_sort, _.
  - apply Sorted_merge_sort, _.
  - by rewrite !sorted_items_permutation.
Qed.

Lemma truthy_perm (d1 d2 : Dict.t) : d1 ≡ₚ d2 → Dict.truthy d1 = Dict.truthy d2.
Proof.
  intros Hperm. destruct d1, d2; try done.
  - by apply Permutation_nil_cons in Hperm.
  - symmetry in Hperm. by apply Permutation_nil_cons in Hperm.
Qed.

Lemma len_perm (d1 d2 : Dict.t) : d1 ≡ₚ d2 → Dict.len d1 = Dict.len d2.
Proof. apply Permutation_length. Qed.

End OrderFacts.

(** X12. The snapshot and the report are sorted, so they do not depend on
    the order in which the packages were inserted: two installed mappings
    with the same items give the same snapshot, and two category results
    whose buckets hold the same items give the same report. *)
Theorem output_order_independent (cluster version date : string) :
  (∀ installed1 installed2 : Dict.t,
     installed1 ≡ₚ installed2 →
     generate_snapshot installed1 cluster version date
     = generate_snapshot installed2 cluster version date)
  ∧ (∀ (cats1 cats2 : categories) (declared1 declared2 : declared_sets),
       (∀ b, bucket_of cats1 b ≡ₚ bucket_of cats2 b) →
       generate_report cats1 declared1 cluster version date
       = generate_report cats2 declared2 cluster version date).
Proof.
  split.
  - intros installed1 installed2 Hperm. unfold generate_snapshot, snapshot_lines.
    by rewrite (OrderFacts.sorted_items_perm _ _ Hperm), (OrderFacts.len_perm _ _ Hperm).
  - intros cats1 cats2 declared1 declared2 Hperm. unfold generate_report.
    change (cat_core ?c) with (bucket_of c Core).
    change (cat_gpu ?c) with (bucket_of c Gpu).
    change (cat_staged ?c) with (bucket_of c Staged).
    change (cat_staged_new ?c) with (bucket_of c StagedNew).
    change (cat_transitive ?c) with (bucket_of c Transitive).
    by rewrite !(OrderFacts.sorted_items_perm _ _ (Hperm _)),
      !(OrderFacts.len_perm _ _ (Hperm _)), !(OrderFacts.truthy_perm _ _ (Hperm _)).
Qed.

Lemma output_order_independent_witness :
  [("b", "2.0"); ("a", "1.0")] ≡ₚ [("a", "1.0"); ("b", "2.0")]
  ∧ generate_snapshot [("b", "2.0"); ("a", "1.0")] "gemini" "3.19" "2026-01-01 00:00"
    = generate_snapshot [("a", "1.0"); ("b", "2.0")] "gemini" "3.19" "2026-01-01 00:00".
Proof.
  assert ([("b", "2.0"); ("a", "1.0")] ≡ₚ [("a", "1.0"); ("b", "2.0")]) as Hperm
    by apply Permutation_swap.
  split; [exact Hperm|].
  exact (proj1 (output_order_independent "gemini" "3.19" "2026-01-01 00:00") _ _ Hperm).
Defined.

(** ** Blank and odd [Required-by:] fields *)

Lemma split_nonempty c s : Py.split c s ≠ [].
Proof.
  destruct s as [|a s]; [done|]. simpl.
  destruct (Ascii.eqb a c); [done|]. by destruct (Py.split c s).
Qed.

(** X13. When [pip show] succeeds, a package counts as having dependents
    exactly when the text after the colon of the first [Required-by:] line
    is not blank.  The names are not looked at: a field that holds only a
    comma counts as well. *)
Theorem has_dependents_iff_field {World : Type}
    (pip_show : string → World → run_result * World)
    (pkg : string) (w : World) (before after : list string) (value : string) :
  (pip_show pkg w).1
  = Completed 0
      (Py.join (String Py.LF "") (before ++ ("Required-by:" +:+ value) :: after)) →
  Forall (fun l => is_line l = true ∧ Py.startswith "Required-by:" l = false) before →
  Forall (fun l => is_line l = true) after →
  is_line value = true →
  has_dependents pip_show pkg w = Py.truthy (Py.strip value).
Proof.
  intros Hout Hbefore Hafter Hline. unfold has_dependents.
  rewrite (get_required_by_lines pip_show pkg w _ Hout).
  - simpl. rewrite ShowFacts.required_by_skip
      by (eapply Forall_impl; [exact Hbefore|]; by intros l [_ ?]).
    rewrite ShowFacts.required_by_field.
    destruct (Py.truthy (Py.strip value)); [|done].
    pose proof (split_nonempty "," (Py.strip value)) as Hne.
    by destruct (Py.split "," (Py.strip value)).
  - by destruct before.
  - apply Forall_app. split; [eapply Forall_impl; [exact Hbefore|]; by intros l [? _]|].
    apply Forall_cons. split; [|done]. unfold is_line.
    rewrite LineFacts.all_chars_app. apply andb_true_iff. by split.
Qed.

Lemma has_dependents_iff_field_witness :
  has_dependents
    (printing_pip_show (["Name: x"] ++ ("Required-by:" +:+ " ,") :: []))
    "x" 0
  = true.
Proof.
  apply (has_dependents_iff_field
           (printing_pip_show (["Name: x"] ++ ("Required-by:" +:+ " ,") :: []))
           "x" 0 ["Name: x"] [] " ,").
  - reflexivity.
  - repeat constructor.
  - constructor.
  - reflexivity.
Defined.
